(** * fill_template: decision resolution and placeholder substitution

    A shallow embedding of [scripts/fill_template.py] and the properties
    of its decision resolver, its placeholder evaluator and its rewrite
    pass.

    Conventions of the embedding.
    - A Python [str] is a Rocq [string]; one [ascii] stands for one
      character, so [len], slicing and the character classes are exact on
      ASCII text.
    - Python objects live in the type [obj]; an operation that can raise
      returns a [result].
    - The console is a pair of line lists (what is still to be read, what
      has been written), the file system a finite map from paths to nodes;
      both are threaded through the code as a [world]. *)

From Stdlib Require Import ZArith String Ascii List Lia Bool.
From Stdlib Require Import Decimal DecimalString DecimalZ DecimalPos.
From stdpp Require Import base gmap strings list.
From Equations Require Import Equations.

#[local] Set Warnings "-register-all".
Local Open Scope string_scope.
Local Open Scope Z_scope.

(** ** Exceptions and results *)

Inductive exn :=
| EOFError
| KeyError (key : string)
| ValueError (msg : string)
| TypeError
| IndexError
| SyntaxError
| NameError (ident : string)
| UnicodeError
| IsADirectoryError
| FileExistsError
| FileNotFoundError
| SystemExit (code : Z).

(** [Outside] marks behaviour of the interpreter that the embedding does
    not cover (attributes and methods of built-in types, evaluation of
    arbitrary expression text).  No theorem below is proved from it. *)
Inductive result (A : Type) :=
| Ok (a : A)
| Raise (e : exn)
| Outside.
Arguments Ok {A} a.
Arguments Raise {A} e.
Arguments Outside {A}.

Definition bind {A B} (r : result A) (k : A -> result B) : result B :=
  match r with
  | Ok a => k a
  | Raise e => Raise e
  | Outside => Outside
  end.

(** ** Strings as Python uses them *)

Module Str.

(** [str.isspace] on the ASCII range: TAB..CR, FS..US and the space. *)
Definition isspace (c : ascii) : bool :=
  let n := nat_of_ascii c in
  ((9 <=? n) && (n <=? 13) || (28 <=? n) && (n <=? 32))%nat.

Definition isdigit (c : ascii) : bool :=
  let n := nat_of_ascii c in ((48 <=? n) && (n <=? 57))%nat.

Definition isalpha (c : ascii) : bool :=
  let n := nat_of_ascii c in
  ((65 <=? n) && (n <=? 90) || (97 <=? n) && (n <=? 122))%nat.

Fixpoint take (n : nat) (s : string) : string :=
  match n, s with
  | S k, String c t => String c (take k t)
  | _, _ => ""
  end.

Fixpoint drop (n : nat) (s : string) : string :=
  match n, s with
  | S k, String _ t => drop k t
  | _, _ => s
  end.

(** [s[:n]] for [n >= 0]. *)
Definition prefix (n : Z) (s : string) : string := take (Z.to_nat n) s.

(** [s[-n:]] for [n > 0]: the last [n] characters, all of [s] when it is
    shorter. *)
Definition suffix (n : Z) (s : string) : string :=
  drop (String.length s - Z.to_nat n) s.

Fixpoint lstrip (s : string) : string :=
  match s with
  | String c t => if isspace c then lstrip t else s
  | EmptyString => ""
  end.

Fixpoint rstrip (s : string) : string :=
  match s with
  | EmptyString => ""
  | String c t =>
      match rstrip t with
      | EmptyString => if isspace c then "" else String c ""
      | r => String c r
      end
  end.

Definition strip (s : string) : string := rstrip (lstrip s).

(** [s.split(sep)] for a one-character separator. *)
Fixpoint split (sep : ascii) (s : string) : list string :=
  match s with
  | EmptyString => [""]
  | String c t =>
      if Ascii.eqb c sep then "" :: split sep t
      else match split sep t with
           | w :: ws => String c w :: ws
           | [] => [String c ""]
           end
  end.

(** [s.partition(sep)] for a one-character separator. *)
Fixpoint partition (sep : ascii) (s : string) : string * string * string :=
  match s with
  | EmptyString => ("", "", "")
  | String c t =>
      if Ascii.eqb c sep then ("", String sep "", t)
      else let '(a, m, b) := partition sep t in (String c a, m, b)
  end.

Fixpoint join (sep : string) (l : list string) : string :=
  match l with
  | [] => ""
  | [x] => x
  | x :: r => x +:+ sep +:+ join sep r
  end.

(** [s.replace(old, new)] for a one-character [old]. *)
Fixpoint replace (old : ascii) (new : string) (s : string) : string :=
  match s with
  | EmptyString => ""
  | String c t =>
      (if Ascii.eqb c old then new else String c "") +:+ replace old new t
  end.

Fixpoint contains (d : ascii) (s : string) : bool :=
  match s with
  | EmptyString => false
  | String c t => Ascii.eqb c d || contains d t
  end.

Fixpoint all (p : ascii -> bool) (s : string) : bool :=
  match s with
  | EmptyString => true
  | String c t => p c && all p t
  end.

Definition endswith (s suf : string) : bool :=
  String.eqb (drop (String.length s - String.length suf) s) suf
  && (String.length suf <=? String.length s)%nat.

(** [s.splitlines()] for text whose only line break is LF. *)
Fixpoint splitlines (s : string) : list string :=
  match s with
  | EmptyString => []
  | String c t =>
      if Ascii.eqb c "010" then "" :: splitlines t
      else match splitlines t with
           | w :: ws => String c w :: ws
           | [] => [String c ""]
           end
  end.

End Str.

(** ** Python objects

    [DecisionOption.value] is typed [Any]; [obj] collects the objects this
    program builds and passes around: [None], strings, lists of strings,
    tuples, instances of the three decision-specific classes, instances
    of [DecisionOption], bound methods and the module-level functions a
    placeholder can name. *)

Inductive func :=
| custom_text_hotswap (method : string)
| quote_fn.

Inductive obj :=
| PyNone
| PyStr (s : string)
| PyList (items : list string)
| PyTuple (items : list obj)
| License (long short : string)
| AuthorsObj (parts : list string)
| PyVersions (semver : string) (_minors : list string) (preferred : string)
| OptionObj (name : string) (value : obj)
| PyMethod (self : obj) (attr : string)
| PyFunction (f : func).

(** [class DecisionOption(NamedTuple)]. *)
Record DecisionOption := mkOption { name : string; value : obj }.

Definition option_obj (o : DecisionOption) : obj := OptionObj (name o) (value o).

(** [Authors.__init__]. *)
Definition Authors (x : string) : obj :=
  AuthorsObj (map Str.strip (Str.split "," x)).

Module Py.

Definition dquote : ascii := "034".

(** Two hexadecimal digits of a character code. *)
Definition hex_digit (n : nat) : ascii :=
  ascii_of_nat (if (n <? 10)%nat then 48 + n else 87 + n)%nat.

Definition hex2 (c : ascii) : string :=
  let n := nat_of_ascii c in
  String (hex_digit (n / 16)%nat) (String (hex_digit (n mod 16)%nat) "").

Definition repr_char (q : ascii) (c : ascii) : string :=
  let n := nat_of_ascii c in
  if Ascii.eqb c "\" then "\\"
  else if Ascii.eqb c q then String "\" (String q "")
  else if Ascii.eqb c "010" then "\n"
  else if Ascii.eqb c "013" then "\r"
  else if Ascii.eqb c "009" then "\t"
  else if ((n <? 32) || (n =? 127))%nat then "\x" +:+ hex2 c
  else String c "".

Fixpoint repr_chars (q : ascii) (s : string) : string :=
  match s with
  | EmptyString => ""
  | String c t => repr_char q c +:+ repr_chars q t
  end.

(** [repr] of a string: single quotes, unless the text has a single
    quote and no double quote. *)
Definition repr_str (s : string) : string :=
  let q : ascii :=
    if Str.contains "'" s && negb (Str.contains dquote s)
    then dquote else "'"%char in
  String q (repr_chars q s) +:+ String q "".

(** The default [object.__repr__]; the address it prints is left out,
    here and in the [repr] of methods and functions. *)
Definition object_repr (cls : string) : string :=
  "<__main__." +:+ cls +:+ " object>".

(** [type(v).__name__]. *)
Definition type_name (v : obj) : string :=
  match v with
  | PyNone => "NoneType"
  | PyStr _ => "str"
  | PyList _ => "list"
  | PyTuple _ => "tuple"
  | License _ _ => "License"
  | AuthorsObj _ => "Authors"
  | PyVersions _ _ _ => "PyVersions"
  | OptionObj _ _ => "DecisionOption"
  | PyMethod _ _ => "method"
  | PyFunction _ => "function"
  end.

(** The program's own classes; the other objects are built in. *)
Definition user_class (v : obj) : bool :=
  match v with
  | License _ _ | AuthorsObj _ | PyVersions _ _ _ | OptionObj _ _ => true
  | _ => false
  end.

Fixpoint repr (v : obj) : string :=
  match v with
  | PyNone => "None"
  | PyStr s => repr_str s
  | PyList l => "[" +:+ Str.join ", " (map repr_str l) +:+ "]"
  | PyTuple l =>
      "(" +:+ (fix items (l : list obj) : string :=
                 match l with
                 | [] => ""
                 | [x] => repr x
                 | x :: r => repr x +:+ ", " +:+ items r
                 end) l
          +:+ match l with [_] => "," | _ => "" end +:+ ")"
  | License _ _ => object_repr "License"
  | AuthorsObj _ => object_repr "Authors"
  | PyVersions _ _ _ => object_repr "PyVersions"
  | OptionObj n x =>
      "DecisionOption(name=" +:+ repr_str n +:+ ", value=" +:+ repr x +:+ ")"
  | PyMethod self attr =>
      if user_class self
      then "<bound method " +:+ type_name self +:+ "." +:+ attr +:+ " of "
           +:+ repr self +:+ ">"
      else "<built-in method " +:+ attr +:+ " of " +:+ type_name self +:+ " object>"
  | PyFunction (custom_text_hotswap _) => "<function custom_text_hotswap.<locals>.ret>"
  | PyFunction quote_fn => "<function quote>"
  end.

(** [str(v)]: [License] defines [__str__], a string is itself, every
    other object falls back on [repr]. *)
Definition str (v : obj) : string :=
  match v with
  | PyStr s => s
  | License long _ => long
  | _ => repr v
  end.

(** Truth value, as [or], [if] and [not] test it. *)
Definition truthy (v : obj) : bool :=
  match v with
  | PyNone => false
  | PyStr s => negb (String.eqb s "")
  | PyList l => match l with [] => false | _ => true end
  | PyTuple l => match l with [] => false | _ => true end
  | _ => true
  end.

(** [len(v)]. *)
Definition len (v : obj) : result Z :=
  match v with
  | PyStr s => Ok (Z.of_nat (String.length s))
  | PyList l => Ok (Z.of_nat (length l))
  | PyTuple l => Ok (Z.of_nat (length l))
  | OptionObj _ _ => Ok 2
  | _ => Raise TypeError
  end.

(** [v[:n]] for [0 <= n]. *)
Definition slice_to (n : Z) (v : obj) : result obj :=
  match v with
  | PyStr s => Ok (PyStr (Str.prefix n s))
  | PyList l => Ok (PyList (take (Z.to_nat n) l))
  | PyTuple l => Ok (PyTuple (take (Z.to_nat n) l))
  | OptionObj a b => Ok (PyTuple (take (Z.to_nat n) [PyStr a; b]))
  | _ => Raise TypeError
  end.

(** [v[-n:]] for [0 < n]. *)
Definition slice_last (n : Z) (v : obj) : result obj :=
  match v with
  | PyStr s => Ok (PyStr (Str.suffix n s))
  | PyList l => Ok (PyList (drop (length l - Z.to_nat n) l))
  | PyTuple l => Ok (PyTuple (drop (length l - Z.to_nat n) l))
  | OptionObj a b => Ok (PyTuple (drop (2 - Z.to_nat n) [PyStr a; b]))
  | _ => Raise TypeError
  end.

(** [str(i)] for an integer. *)
Definition str_int (i : Z) : string := NilZero.string_of_int (Z.to_int i).

(** Digits of an integer literal: underscores are dropped, and allowed
    only between two digits. *)
Fixpoint int_digits (s : string) (after_digit : bool) : option string :=
  match s with
  | EmptyString => if after_digit then Some "" else None
  | String c t =>
      if Str.isdigit c then option_map (String c) (int_digits t true)
      else if Ascii.eqb c "_" && after_digit then int_digits t false
      else None
  end.

(** The white space [int] skips around a numeral: TAB..CR and the space.
    FS..US, which [str.strip] removes, are not skipped: [int] rejects a
    text that holds one of them. *)
Definition int_space (c : ascii) : bool :=
  let n := nat_of_ascii c in ((9 <=? n) && (n <=? 13) || (n =? 32))%nat.

Fixpoint int_lstrip (s : string) : string :=
  match s with
  | String c t => if int_space c then int_lstrip t else s
  | EmptyString => ""
  end.

Fixpoint int_rstrip (s : string) : string :=
  match s with
  | EmptyString => ""
  | String c t =>
      match int_rstrip t with
      | EmptyString => if int_space c then "" else String c ""
      | r => String c r
      end
  end.

(** [int(s)]: [None] stands for [ValueError].  Surrounding white space
    and one sign are accepted. *)
Definition int (s : string) : option Z :=
  let t := int_rstrip (int_lstrip s) in
  let '(negative, body) :=
    match t with
    | String c r =>
        if Ascii.eqb c "-" then (true, r)
        else if Ascii.eqb c "+" then (false, r)
        else (false, t)
    | EmptyString => (false, t)
    end in
  match int_digits body false with
  | Some d =>
      match NilEmpty.uint_of_string d with
      | Some u => Some (if negative then - Z.of_uint u else Z.of_uint u)
      | None => None
      end
  | None => None
  end.

(** [l[i]] on a list: negative indices count from the end. *)
Definition index {A} (l : list A) (i : Z) : result A :=
  let n := Z.of_nat (length l) in
  let j := if i <? 0 then i + n else i in
  if (0 <=? j) && (j <? n)
  then match l !! Z.to_nat j with Some a => Ok a | None => Raise IndexError end
  else Raise IndexError.

(** [callable(v)]. *)
Definition callable (v : obj) : bool :=
  match v with
  | PyMethod _ _ | PyFunction _ => true
  | _ => false
  end.

End Py.

(** ** Decisions *)

Definition DESCRIPTION_MAX_LEN : Z := 20.

(** [DecisionOption.describe]. *)
Definition describe (self : DecisionOption) : result string :=
  let chars_left := DESCRIPTION_MAX_LEN - Z.of_nat (String.length (name self)) - 3 in
  if chars_left <=? 0 then Ok (name self)
  else
    let printable_value :=
      if Py.truthy (value self) then value self
      else PyStr (Py.repr (value self)) in
    bind (Py.len printable_value) (fun n =>
    if n <=? chars_left
    then Ok (name self +:+ " (" +:+ Py.str printable_value +:+ ")")
    else
      let chars_left := chars_left - 2 in
      if chars_left <=? 2 then Ok (name self)
      else
        let side_len := chars_left / 2 in
        bind (Py.slice_to side_len printable_value) (fun a =>
        bind (Py.slice_last side_len printable_value) (fun b =>
        Ok (name self +:+ " (" +:+ Py.str a +:+ ".." +:+ Py.str b +:+ ")")))).

(** ** Regular expressions

    The patterns of the program use classes, concatenation, [*], [+] and
    [{4}] only; on these [Pattern.fullmatch] decides membership in the
    language of the pattern, which derivatives compute. *)

Inductive regex :=
| Void
| Eps
| Class (p : ascii -> bool)
| Cat (r1 r2 : regex)
| Alt (r1 r2 : regex)
| Star (r : regex).

Module Re.

Definition Chr (c : ascii) : regex := Class (Ascii.eqb c).
Definition Plus (r : regex) : regex := Cat r (Star r).

Fixpoint Repeat (n : nat) (r : regex) : regex :=
  match n with
  | O => Eps
  | S k => Cat r (Repeat k r)
  end.

Fixpoint nullable (r : regex) : bool :=
  match r with
  | Void => false
  | Eps => true
  | Class _ => false
  | Cat r1 r2 => nullable r1 && nullable r2
  | Alt r1 r2 => nullable r1 || nullable r2
  | Star _ => true
  end.

Fixpoint deriv (c : ascii) (r : regex) : regex :=
  match r with
  | Void => Void
  | Eps => Void
  | Class p => if p c then Eps else Void
  | Cat r1 r2 =>
      if nullable r1
      then Alt (Cat (deriv c r1) r2) (deriv c r2)
      else Cat (deriv c r1) r2
  | Alt r1 r2 => Alt (deriv c r1) (deriv c r2)
  | Star r1 => Cat (deriv c r1) (Star r1)
  end.

(** [pattern.fullmatch(s)] as a truth value. *)
Fixpoint fullmatch (r : regex) (s : string) : bool :=
  match s with
  | EmptyString => nullable r
  | String c t => fullmatch (deriv c r) t
  end.

(** The language of a pattern. *)
Inductive Matches : regex -> string -> Prop :=
| MEps : Matches Eps ""
| MClass p c : p c = true -> Matches (Class p) (String c "")
| MCat r1 r2 s1 s2 :
    Matches r1 s1 -> Matches r2 s2 -> Matches (Cat r1 r2) (s1 +:+ s2)
| MAltL r1 r2 s : Matches r1 s -> Matches (Alt r1 r2) s
| MAltR r1 r2 s : Matches r2 s -> Matches (Alt r1 r2) s
| MStar0 r : Matches (Star r) ""
| MStarS r s1 s2 :
    Matches r s1 -> Matches (Star r) s2 -> Matches (Star r) (s1 +:+ s2).

(** Character classes of the program's patterns. *)
Definition word (c : ascii) : bool :=          (* [a-zA-Z0-9_] *)
  Str.isalpha c || Str.isdigit c || Ascii.eqb c "_".
Definition name_char (c : ascii) : bool :=     (* [a-zA-Z\s0-9_] *)
  Str.isalpha c || Str.isspace c || Str.isdigit c || Ascii.eqb c "_".
Definition addr_char (c : ascii) : bool :=     (* [a-zA-Z._0-9] *)
  Str.isalpha c || Ascii.eqb c "." || Ascii.eqb c "_" || Str.isdigit c.
Definition dot (c : ascii) : bool :=           (* . *)
  negb (Ascii.eqb c "010").

End Re.

(** [author_pattern = '[a-zA-Z\s0-9_]+\s<[a-zA-Z._0-9]+@[a-zA-Z._0-9]+>']. *)
Definition author_pattern : regex :=
  Cat (Re.Plus (Class Re.name_char))
 (Cat (Class Str.isspace)
 (Cat (Re.Chr "<")
 (Cat (Re.Plus (Class Re.addr_char))
 (Cat (Re.Chr "@")
 (Cat (Re.Plus (Class Re.addr_char))
      (Re.Chr ">")))))).

(** [author_pattern + "(,\s*" + author_pattern + ")*"]. *)
Definition authors_pattern : regex :=
  Cat author_pattern
      (Star (Cat (Re.Chr ",") (Cat (Star (Class Str.isspace)) author_pattern))).

(** ['[a-zA-Z][a-zA-Z0-9_]*']. *)
Definition package_pattern : regex :=
  Cat (Class Str.isalpha) (Star (Class Re.word)).

(** ['[0-9]{4}']. *)
Definition year_pattern : regex := Re.Repeat 4 (Class Str.isdigit).

(** ['.*']. *)
Definition any_pattern : regex := Star (Class Re.dot).

(** ** The console *)

Definition nl : string := String "010" "".

(** What the program writes: the prompt of an [input] call, a [print]ed
    line, or a [pprint] of the decisions made. *)
Inductive output :=
| Prompt (text : string)
| Print (text : string)
| Pprint (made : gmap string obj).

(** Lines still to be read, and what was written so far. *)
Record console := mkConsole { stdin : list string; stdout : list output }.

Definition write (o : output) (io : console) : console :=
  mkConsole (stdin io) (stdout io ++ [o]).

(** [input()]: the next line, without its line break. *)
Definition read_line (io : console) : result string * console :=
  match stdin io with
  | [] => (Raise EOFError, io)
  | line :: rest => (Ok line, mkConsole rest (stdout io))
  end.

(** [input(prompt)]. *)
Definition input (prompt : string) (io : console) : result string * console :=
  read_line (write (Prompt prompt) io).

(** [str(e)] for the exceptions whose message the program prints. *)
Definition exn_str (e : exn) : string :=
  match e with
  | ValueError msg => msg
  | KeyError key => Py.repr_str key
  | NameError ident => "name " +:+ Py.repr_str ident +:+ " is not defined"
  | _ => ""
  end.

(** [except Exception] does not catch [SystemExit]. *)
Definition is_Exception (e : exn) : bool :=
  match e with SystemExit _ => false | _ => true end.

(** ** Resolvers

    [ConstResolver] and its subclass [AuthorsResolver] are the two classes
    the program instantiates.  [_options] is a Python set; the list gives
    its elements in the order in which the set is iterated. *)

Inductive resolver_class := ConstResolverCls | AuthorsResolverCls.

Record ConstResolver := mkResolver {
  cls : resolver_class;
  pattern : option regex;
  pattern_description : string;
  _options : list DecisionOption
}.

(** [DecisionOption.__eq__]: tuples are compared field by field.  Two
    instances of [License], [Authors] or [PyVersions] with the same
    fields count as equal here; the program never adds such a second
    instance to a set. *)
Fixpoint obj_eqb (a b : obj) : bool :=
  match a, b with
  | PyNone, PyNone => true
  | PyStr s, PyStr t => String.eqb s t
  | PyList l, PyList m => bool_decide (l = m)
  | PyTuple l, PyTuple m =>
      (fix items (l m : list obj) : bool :=
         match l, m with
         | [], [] => true
         | x :: l', y :: m' => obj_eqb x y && items l' m'
         | _, _ => false
         end) l m
  | License a1 a2, License b1 b2 => String.eqb a1 b1 && String.eqb a2 b2
  | AuthorsObj l, AuthorsObj m => bool_decide (l = m)
  | PyVersions a1 a2 a3, PyVersions b1 b2 b3 =>
      String.eqb a1 b1 && bool_decide (a2 = b2) && String.eqb a3 b3
  | OptionObj n x, OptionObj m y => String.eqb n m && obj_eqb x y
  | PyMethod x n, PyMethod y m => obj_eqb x y && String.eqb n m
  | PyFunction f, PyFunction g =>
      match f, g with
      | custom_text_hotswap m1, custom_text_hotswap m2 => String.eqb m1 m2
      | quote_fn, quote_fn => true
      | _, _ => false
      end
  | _, _ => false
  end.

Definition option_eqb (a b : DecisionOption) : bool :=
  String.eqb (name a) (name b) && obj_eqb (value a) (value b).

(** [ConstResolver.add_option]: adding to a set. *)
Definition add_option (self : ConstResolver) (option : DecisionOption) : ConstResolver :=
  mkResolver (cls self) (pattern self) (pattern_description self)
    (if existsb (option_eqb option) (_options self) then _options self
     else _options self ++ [option]).

(** [ConstResolver.options]. *)
Definition options (self : ConstResolver) : list DecisionOption := _options self.

(** [RegexDecisionValidator.custom_option]. *)
Definition validate (p : regex) (description : string) (x : string) : result string :=
  if negb (Re.fullmatch p x)
  then Raise (ValueError ("must match " +:+ description))
  else Ok x.

(** [self.custom_option]: [None] when the resolver has no pattern
    ([RegexDecisionValidator.__init__]); [AuthorsResolver] wraps the
    validated text in [Authors]. *)
Definition custom_option (self : ConstResolver) : option (string -> result obj) :=
  match pattern self with
  | None => None
  | Some p =>
      Some (fun x =>
        match cls self with
        | ConstResolverCls =>
            bind (validate p (pattern_description self) x) (fun x => Ok (PyStr x))
        | AuthorsResolverCls =>
            bind (validate p (pattern_description self) x) (fun x => Ok (Authors x))
        end)
  end.

(** The menu [make] shows: one line per option, numbered from 1. *)
Fixpoint menu_lines (i : Z) (options : list DecisionOption) : list string :=
  match options with
  | [] => []
  | option :: rest =>
      (Py.str_int i +:+ ": " +:+ name option +:+ " (" +:+ Py.str (value option) +:+ ")")
        :: menu_lines (i + 1) rest
  end.

Definition menu (self : ConstResolver) (name : string) : string :=
  let msg := ("enter value for " +:+ name +:+ ":") :: menu_lines 1 (options self) in
  let msg :=
    match custom_option self with
    | Some _ => (msg ++ ["t: custom text"])%list
    | None => msg
    end in
  Str.join nl msg +:+ nl.

(** [DecisionResolver.make].  Every retry has read at least one line, so
    the recursion is on the lines still to be read. *)
Fixpoint make (self : ConstResolver) (name : string)
    (lines : list string) (out : list output) {struct lines}
    : result obj * console :=
  let options := options self in
  let out := (out ++ [Prompt (menu self name)])%list in
  match lines with
  | [] => (Raise EOFError, mkConsole [] out)
  | response :: lines =>
      let selected :=
        match Py.int response with
        | Some response_int =>
            if response_int <? Z.of_nat (length options)
            then Some (Py.index options response_int)
            else None
        | None => None
        end in
      match selected with
      | Some r => (bind r (fun o => Ok (option_obj o)), mkConsole lines out)
      | None =>
          let complaint := Print ("could not parse " +:+ response) in
          match (if String.eqb response "t" then custom_option self else None) with
          | Some custom_fn =>
              let out := (out ++ [Prompt ("enter custom text:" +:+ nl)])%list in
              match lines with
              | [] => (Raise EOFError, mkConsole [] out)
              | custom :: lines =>
                  match custom_fn custom with
                  | Ok v => (Ok v, mkConsole lines out)
                  | Raise e =>
                      if is_Exception e
                      then make self name lines (out ++ [Print (exn_str e); complaint])%list
                      else (Raise e, mkConsole lines out)
                  | Outside => (Outside, mkConsole lines out)
                  end
              end
          | None => make self name lines (out ++ [complaint])%list
          end
      end
  end.

(** ** The placeholder evaluator *)

Module Attr.

(** Public attributes of [str], [list] and [tuple] objects. *)
Definition str_methods : list string :=
  ["capitalize"; "casefold"; "center"; "count"; "encode"; "endswith";
   "expandtabs"; "find"; "format"; "format_map"; "index"; "isalnum";
   "isalpha"; "isascii"; "isdecimal"; "isdigit"; "isidentifier";
   "islower"; "isnumeric"; "isprintable"; "isspace"; "istitle";
   "isupper"; "join"; "ljust"; "lower"; "lstrip"; "maketrans";
   "partition"; "replace"; "rfind"; "rindex"; "rjust"; "rpartition";
   "rsplit"; "rstrip"; "split"; "splitlines"; "startswith"; "strip";
   "swapcase"; "title"; "translate"; "upper"; "zfill"].

(** Added to [str] by later interpreter versions. *)
Definition str_methods_later : list string := ["removeprefix"; "removesuffix"].

Definition list_methods : list string :=
  ["append"; "clear"; "copy"; "count"; "extend"; "index"; "insert";
   "pop"; "remove"; "reverse"; "sort"].

Definition tuple_methods : list string := ["count"; "index"].

Definition mem (x : string) (l : list string) : bool := existsb (String.eqb x) l.

Definition private (attr : string) : bool :=
  match attr with String "_" _ => true | _ => false end.

(** A method of a built-in type, [None] when the type has no such
    public attribute; names with a leading underscore are not covered. *)
Definition builtin (self : obj) (attr : string)
    (methods later : list string) : result obj :=
  if private attr || mem attr later then Outside
  else if mem attr methods then Ok (PyMethod self attr)
  else Ok PyNone.

End Attr.

(** [getattr(v, attr, None)]. *)
Definition getattr (v : obj) (attr : string) : result obj :=
  match v with
  | License long short =>
      if String.eqb attr "long" then Ok (PyStr long)
      else if String.eqb attr "short" then Ok (PyStr short)
      else if String.eqb attr "format_map" then Ok (PyMethod v attr)
      else if Attr.private attr then Outside else Ok PyNone
  | AuthorsObj parts =>
      if String.eqb attr "parts" then Ok (PyList parts)
      else if String.eqb attr "split" then Ok (PyMethod v attr)
      else if Attr.private attr then Outside else Ok PyNone
  | PyVersions semver _minors preferred =>
      if String.eqb attr "semver" then Ok (PyStr semver)
      else if String.eqb attr "_minors" then Ok (PyList _minors)
      else if String.eqb attr "preferred" then Ok (PyStr preferred)
      else if String.eqb attr "minors" then Ok (PyMethod v attr)
      else if Attr.private attr then Outside else Ok PyNone
  | OptionObj n x =>
      if String.eqb attr "name" then Ok (PyStr n)
      else if String.eqb attr "value" then Ok x
      else if String.eqb attr "describe" then Ok (PyMethod v attr)
      else Attr.builtin v attr Attr.tuple_methods []
  | PyStr _ => Attr.builtin v attr Attr.str_methods Attr.str_methods_later
  | PyList _ => Attr.builtin v attr Attr.list_methods []
  | PyTuple _ => Attr.builtin v attr Attr.tuple_methods []
  | PyNone | PyMethod _ _ | PyFunction _ => Attr.builtin v attr [] []
  end.

(** [quote]. *)
Definition quote (x : obj) : string :=
  let x := Py.str x in
  let x := Str.replace Py.dquote (String "\" (String Py.dquote "")) x in
  String Py.dquote x +:+ String Py.dquote "".

(** The module-level names
    [preferred = custom_text_hotswap('preferred')],
    [split = custom_text_hotswap('short')] and
    [semver = custom_text_hotswap('semver')]. *)
Definition preferred : obj := PyFunction (custom_text_hotswap "preferred").
Definition split : obj := PyFunction (custom_text_hotswap "short").
Definition semver : obj := PyFunction (custom_text_hotswap "semver").

(** [eval(text)] where [text] is one of the module-level function names a
    placeholder is meant to use; other expression text is not covered. *)
Definition eval (text : string) : result obj :=
  if String.eqb text "preferred" then Ok preferred
  else if String.eqb text "split" then Ok split
  else if String.eqb text "semver" then Ok semver
  else if String.eqb text "quote" then Ok (PyFunction quote_fn)
  else Outside.

(** [f(x)]. *)
Definition call1 (f x : obj) (io : console) : result obj * console :=
  match f with
  | PyFunction (custom_text_hotswap method) =>
      match x with
      | PyStr text =>
          let '(r, io) :=
            input ("enter result for custom text " +:+ text
                   +:+ " with method " +:+ method +:+ ":" +:+ nl) io in
          (bind r (fun line => Ok (PyStr line)), io)
      | _ => (Raise TypeError, io)
      end
  | PyFunction quote_fn => (Ok (PyStr (quote x)), io)
  | PyMethod _ _ => (Outside, io)
  | _ => (Raise TypeError, io)
  end.

(** [f()]. *)
Definition call0 (f : obj) : result obj :=
  match f with
  | PyMethod (AuthorsObj parts) "split" => Ok (PyList parts)
  | PyMethod (PyVersions _ _minors _) "minors" => Ok (PyStr (Str.join ", " _minors))
  | PyMethod (OptionObj n x) "describe" =>
      bind (describe (mkOption n x)) (fun s => Ok (PyStr s))
  | PyMethod (License _ _) "format_map" => Raise TypeError
  | PyMethod _ _ => Outside
  | PyFunction _ => Raise TypeError
  | _ => Raise TypeError
  end.

Lemma partition_first_shorter sep x first mid second :
  Str.partition sep x = (first, mid, second) ->
  second <> "" ->
  (String.length first < String.length x)%nat.
Proof.
  revert first mid second.
  induction x as [|c t IH]; simpl; intros first mid second H Hne.
  - inversion H; subst. congruence.
  - destruct (Ascii.eqb c sep).
    + inversion H; subst. simpl. lia.
    + destruct (Str.partition sep t) as [[a m] b] eqn:E.
      inversion H; subst. simpl.
      specialize (IH _ _ _ eq_refl Hne). lia.
Qed.

Definition inspect {A : Type} (x : A) : { y : A | x = y } := exist _ x eq_refl.

(** The rest of [inner] once [evaled_first] is known. *)
Definition inner_second (evaled_first : obj) (second : string) (io : console)
    : result obj * console :=
  match getattr evaled_first second with
  | Ok evaled_second =>
      let '(r, io) :=
        match evaled_second with
        | PyNone =>
            match eval second with
            | Ok second_callback => call1 second_callback evaled_second io
            | Raise e => (Raise e, io)
            | Outside => (Outside, io)
            end
        | _ => (Ok evaled_second, io)
        end in
      (bind r (fun evaled_second =>
         if Py.callable evaled_second then call0 evaled_second
         else Ok evaled_second), io)
  | Raise e => (Raise e, io)
  | Outside => (Outside, io)
  end.

(** [inner], the local function of [repl]. *)
Equations inner (made_decisions : gmap string obj) (x : string) (io : console)
    : result obj * console by wf (String.length x) lt :=
  inner made_decisions x io with inspect (Str.partition "!" x) := {
    | exist _ (first, _, second) Hp with inspect (String.eqb second "") := {
        | exist _ true _ :=
            match made_decisions !! first with
            | Some v => (Ok v, io)
            | None => (Raise (KeyError first), io)
            end
        | exist _ false Hs with inner made_decisions first io := {
            | (Ok evaled_first, io1) := inner_second evaled_first second io1
            | (Raise e, io1) := (Raise e, io1)
            | (Outside, io1) := (Outside, io1) } } }.
Next Obligation.
  eapply partition_first_shorter; [exact Hp|].
  intros ->. discriminate.
Qed.

(** [repl]: the text that replaces a match whose group 1 is [body]. *)
Definition repl (made_decisions : gmap string obj) (body : string) (io : console)
    : result string * console :=
  let '(r, io) := inner made_decisions body io in
  (bind r (fun v => Ok (Py.str v)), io).

(** ** The placeholder pattern

    [pattern] matches an opening [<$], then as many characters other than
    a dollar as possible (group 1), then a closing [$>]. *)

Module Placeholder.

(** The longest prefix without [d], and what follows it. *)
Fixpoint span_not (d : ascii) (s : string) : string * string :=
  match s with
  | EmptyString => ("", "")
  | String c t =>
      if Ascii.eqb c d then ("", s)
      else let '(a, b) := span_not d t in (String c a, b)
  end.

(** A match that starts at the first character of [s]: group 1 and the
    text after the match.  The class [[^$]] cannot step over a dollar,
    so group 1 ends at the first dollar after the opening delimiter. *)
Definition match_here (s : string) : option (string * string) :=
  match s with
  | String "<" (String "$" t) =>
      match span_not "$" t with
      | (body, String "$" (String ">" rest)) => Some (body, rest)
      | _ => None
      end
  | _ => None
  end.

(** [any(pattern.finditer(s))]: some position of [s] starts a match. *)
Fixpoint search (s : string) : bool :=
  match s with
  | EmptyString => false
  | String _ t =>
      match match_here s with Some _ => true | None => search t end
  end.

Lemma span_not_length d s a b :
  span_not d s = (a, b) ->
  (String.length a + String.length b = String.length s)%nat.
Proof.
  revert a b; induction s as [|c t IH]; simpl; intros a b H.
  - inversion H; reflexivity.
  - destruct (Ascii.eqb c d).
    + inversion H; subst; reflexivity.
    + destruct (span_not d t) as [a' b'] eqn:E. inversion H; subst. simpl.
      specialize (IH _ _ eq_refl). lia.
Qed.

Lemma match_here_shorter s body rest :
  match_here s = Some (body, rest) ->
  (String.length rest < String.length s)%nat.
Proof.
  unfold match_here. intros H.
  repeat match type of H with
  | match ?x with _ => _ end = _ => destruct x eqn:?; try discriminate
  | (if ?x then _ else _) = _ => destruct x eqn:?; try discriminate
  end.
  inversion H; subst.
  match goal with E : span_not _ _ = _ |- _ => apply span_not_length in E end.
  simpl in *. lia.
Qed.

End Placeholder.

(** [pattern.sub(repl, s)]: the matches are replaced from left to right,
    a match is looked for again right after the previous one, and an
    exception of [repl] ends the substitution. *)
Equations sub (made_decisions : gmap string obj) (s : string) (io : console)
    : result string * console by wf (String.length s) lt :=
  sub made_decisions EmptyString io := (Ok "", io);
  sub made_decisions (String c t) io with inspect (Placeholder.match_here (String c t)) := {
    | exist _ (Some (body, rest)) Hm with repl made_decisions body io := {
        | (Ok text, io1) with sub made_decisions rest io1 := {
            | (Ok out, io2) := (Ok (text +:+ out), io2)
            | (Raise e, io2) := (Raise e, io2)
            | (Outside, io2) := (Outside, io2) }
        | (Raise e, io1) := (Raise e, io1)
        | (Outside, io1) := (Outside, io1) }
    | exist _ None _ with sub made_decisions t io := {
        | (Ok out, io1) := (Ok (String c out), io1)
        | (Raise e, io1) := (Raise e, io1)
        | (Outside, io1) := (Outside, io1) } }.
Next Obligation.
  exact (Placeholder.match_here_shorter (String c t) body rest Hm).
Qed.

(** ** Paths and files *)

Module Path.

(** A path is the list of its components. *)
Definition name (p : list string) : string := List.last p "".

Definition parent (p : list string) : list string := removelast p.

(** [p / child]. *)
Definition child (p : list string) (c : string) : list string := (p ++ [c])%list.

(** [s.rfind('.')], [None] for [-1]. *)
Fixpoint rfind_dot (s : string) : option nat :=
  match s with
  | EmptyString => None
  | String c t =>
      match rfind_dot t with
      | Some i => Some (S i)
      | None => if Ascii.eqb c "." then Some O else None
      end
  end.

(** [PurePath.suffix]: the last dot of the name and what follows it,
    unless that dot starts or ends the name. *)
Definition suffix (p : list string) : string :=
  let name := name p in
  match rfind_dot name with
  | Some i =>
      if ((0 <? i) && (i <? String.length name - 1))%nat
      then Str.drop i name else ""
  | None => ""
  end.

(** [PurePath.with_suffix(suffix)] for a suffix that is well formed (a
    dot followed by text without separators). *)
Definition with_suffix (p : list string) (suffix' : string) : result (list string) :=
  let name := name p in
  if String.eqb name "" then Raise (ValueError "has an empty name")
  else
    let old_suffix := suffix p in
    let name :=
      if String.eqb old_suffix "" then name +:+ suffix'
      else Str.take (String.length name - String.length old_suffix) name +:+ suffix' in
    Ok (child (parent p) name).

End Path.

(** What a path leads to: a directory, a file that decodes to text, or a
    file whose bytes do not decode. *)
Inductive node :=
| Directory
| Text (content : string)
| Binary (bytes : string).

Record world := mkWorld { io : console; files : gmap (list string) node }.

(** [Path.read_text]. *)
Definition read_text (file : list string) (w : world) : result string :=
  match files w !! file with
  | None => Raise FileNotFoundError
  | Some Directory => Raise IsADirectoryError
  | Some (Text content) => Ok content
  | Some (Binary _) => Raise UnicodeError
  end.

(** [Path.write_text]. *)
Definition write_text (file : list string) (data : string) (w : world)
    : result unit * world :=
  match files w !! file with
  | Some Directory => (Raise IsADirectoryError, w)
  | _ => (Ok tt, mkWorld (io w) (<[file := Text data]> (files w)))
  end.

(** [Path.mkdir]. *)
Definition mkdir (dir : list string) (w : world) : result unit * world :=
  match files w !! dir with
  | Some _ => (Raise FileExistsError, w)
  | None => (Ok tt, mkWorld (io w) (<[dir := Directory]> (files w)))
  end.

(** ** The option tables *)

Definition dq : string := String Py.dquote "".

Definition mit_text : string :=
    "Copyright (c) {year}, {authors}"
    +:+ nl
    +:+ nl
    +:+ "Permission is hereby granted, free of charge, to any person "
    +:+ "obtaining a copy of this software and associated documentati"
    +:+ "on files (the "
    +:+ dq
    +:+ "Software"
    +:+ dq
    +:+ "), to deal in the Software without restriction, including wi"
    +:+ "thout limitation the rights to use, copy, modify, merge, pub"
    +:+ "lish, distribute, sublicense, and/or sell copies of the Soft"
    +:+ "ware, and to permit persons to whom the Software is furnishe"
    +:+ "d to do so, subject to the following conditions:"
    +:+ nl
    +:+ nl
    +:+ "The above copyright notice and this permission notice (inclu"
    +:+ "ding the next paragraph) shall be included in all copies or "
    +:+ "substantial portions of the Software."
    +:+ nl
    +:+ nl
    +:+ "THE SOFTWARE IS PROVIDED "
    +:+ dq
    +:+ "AS IS"
    +:+ dq
    +:+ ", WITHOUT WARRANTY OF ANY KIND, EXPRESS OR IMPLIED, INCLUDIN"
    +:+ "G BUT NOT LIMITED TO THE WARRANTIES OF MERCHANTABILITY, FITN"
    +:+ "ESS FOR A PARTICULAR PURPOSE AND NONINFRINGEMENT. IN NO EVEN"
    +:+ "T SHALL THE AUTHORS OR COPYRIGHT HOLDERS BE LIABLE FOR ANY C"
    +:+ "LAIM, DAMAGES OR OTHER LIABILITY, WHETHER IN AN ACTION OF CO"
    +:+ "NTRACT, TORT OR OTHERWISE, ARISING FROM, OUT OF OR IN CONNEC"
    +:+ "TION WITH THE SOFTWARE OR THE USE OR OTHER DEALINGS IN THE S"
    +:+ "OFTWARE.".

Definition license_options : list DecisionOption :=
  [ mkOption "blank" (License "" "");
    mkOption "proprietary" (License "Copyright (c) {year}, {authors}" "Proprietary");
    mkOption "MIT" (License mit_text "MIT") ].

Definition py_version_options : list DecisionOption :=
  [ mkOption "^3.6" (PyVersions "^3.6" ["3.6"; "3.7"; "3.8"; "3.9"] "3.7");
    mkOption "^3.7" (PyVersions "^3.7" ["3.7"; "3.8"; "3.9"] "3.8");
    mkOption "^3.8" (PyVersions "^3.8" ["3.8"; "3.9"] "3.8");
    mkOption "^3.9" (PyVersions "^3.9" ["3.9"] "3.9") ].

Definition platform_options : list DecisionOption :=
  [ mkOption "All Majors" (PyStr "ubuntu-latest, macos-latest, windows-latest");
    mkOption "No Windows" (PyStr "ubuntu-latest, macos-latest");
    mkOption "No Macos" (PyStr "ubuntu-latest, windows-latest");
    mkOption "No Ubuntu" (PyStr "macos-latest, windows-latest");
    mkOption "Windows" (PyStr "windows-latest");
    mkOption "Macos" (PyStr "macos-latest");
    mkOption "Ubuntu" (PyStr "ubuntu-latest") ].

Definition initial_version_options : list DecisionOption :=
  [ mkOption "0.0.1.dev" (PyStr "0.0.1.dev");
    mkOption "0.1.0.dev" (PyStr "0.1.0.dev");
    mkOption "1.0.0.dev" (PyStr "1.0.0.dev") ].

(** [ConstResolver(options, pattern)] and [AuthorsResolver()]. *)
Definition const_resolver (options : list DecisionOption) (pattern : regex) : ConstResolver :=
  mkResolver ConstResolverCls (Some pattern) "pattern" options.

Definition AuthorsResolver : ConstResolver :=
  mkResolver AuthorsResolverCls (Some authors_pattern)
    "name <email>[, name <email>...]" [].

(** The module-level dict [decisions], in insertion order. *)
Definition decisions : list (string * ConstResolver) :=
  [ ("package", const_resolver [] package_pattern);
    ("authors", AuthorsResolver);
    ("year", const_resolver [] year_pattern);
    ("repo_link", const_resolver [] any_pattern);
    ("license", const_resolver license_options any_pattern);
    ("py_versions", const_resolver py_version_options any_pattern);
    ("os_platforms", const_resolver platform_options any_pattern);
    ("inital_version", const_resolver initial_version_options any_pattern) ].

(** ** main *)

(** The parsed command line ([make_parser]). *)
Record Namespace := mkArgs { del_script : bool; backup : bool }.

(** What the program finds around it: the working directory, the current
    year, what [subprocess.run] does with each command (the exit status
    and the output of the process, or an exception when the process
    cannot be started), and what [project_root.rglob] yields, in that
    order. *)
Record environment := mkEnv {
  cwd : list string;
  now_year : Z;
  subprocess_run : string -> result (Z * string);
  rglob : list string -> list (list string)
}.

(** [run_and_get]. *)
Definition run_and_get (env : environment) (args : string) (default : option string)
    : result (option string) :=
  bind (subprocess_run env args) (fun '(returncode, stdout) =>
  if negb (returncode =? 0) then Ok default else Ok (Some (Str.strip stdout))).

(** Truth value of an optional string ([None] and the empty string are
    false). *)
Definition nonempty (s : option string) : option string :=
  match s with
  | Some "" => None
  | _ => s
  end.

(** [decisions[key].add_option(option)]. *)
Fixpoint decisions_add (key : string) (option : DecisionOption)
    (table : list (string * ConstResolver)) : list (string * ConstResolver) :=
  match table with
  | [] => []
  | (k, resolver) :: rest =>
      if String.eqb k key then (k, add_option resolver option) :: rest
      else (k, resolver) :: decisions_add key option rest
  end.

(** The project root: the working directory, or its parent when it is
    named [scripts]. *)
Definition project_root (env : environment) : list string :=
  if String.eqb (Path.name (cwd env)) "scripts" then Path.parent (cwd env) else cwd env.

(** The loop over the remotes. *)
Fixpoint add_remotes (env : environment) (remotes : list string)
    (table : list (string * ConstResolver)) : result (list (string * ConstResolver)) :=
  match remotes with
  | [] => Ok table
  | remote :: rest =>
      bind (run_and_get env ("git remote get-url " +:+ remote) None) (fun url =>
      let table :=
        match nonempty url with
        | Some url =>
            let url :=
              if Str.endswith url ".git"
              then Str.take (String.length url - 4) url else url in
            decisions_add "repo_link" (mkOption remote (PyStr url)) table
        | None => table
        end in
      add_remotes env rest table)
  end.

(** The options [main] adds to [decisions] before it asks anything. *)
Definition probe (env : environment) : result (list (string * ConstResolver)) :=
  let table := decisions in
  let table :=
    decisions_add "package" (mkOption "folder_name" (PyStr (Path.name (project_root env)))) table in
  let table :=
    decisions_add "year" (mkOption "current year" (PyStr (Py.str_int (now_year env)))) table in
  bind (run_and_get env "git config user.name" None) (fun username =>
  bind (match nonempty username with
        | Some username =>
            bind (run_and_get env "git config user.email" None) (fun email =>
            match nonempty email with
            | Some email =>
                Ok (decisions_add "authors"
                      (mkOption "git user" (Authors (username +:+ " <" +:+ email +:+ ">")))
                      table)
            | None => Ok table
            end)
        | None => Ok table
        end) (fun table =>
  bind (run_and_get env "git remote" (Some "")) (fun out =>
  let remotes :=
    match out with
    | Some out => Str.splitlines out
    | None => []
    end in
  add_remotes env remotes table))).

(** [for name, resolver in decisions.items():
       made_decisions[name] = resolver.make(name)]. *)
Fixpoint make_all (table : list (string * ConstResolver))
    (made_decisions : gmap string obj) (io : console)
    : result (gmap string obj) * console :=
  match table with
  | [] => (Ok made_decisions, io)
  | (name, resolver) :: rest =>
      match make resolver name (stdin io) (stdout io) with
      | (Ok v, io) => make_all rest (<[name := v]> made_decisions) io
      | (Raise e, io) => (Raise e, io)
      | (Outside, io) => (Outside, io)
      end
  end.

(** The confirmation: the decisions are shown, one line is read, and any
    text on it ends the run through [sys.exit(1)]. *)
Definition confirm (made_decisions : gmap string obj) (io : console)
    : result unit * console :=
  let io :=
    write (Print ("You are about to fill the project with the following values."
                  +:+ " Enter a blank line to proceed or any other input to cancel.")) io in
  let io := write (Pprint made_decisions) io in
  match read_line io with
  | (Ok response, io) =>
      if negb (String.eqb response "") then (Raise (SystemExit 1), io) else (Ok tt, io)
  | (Raise e, io) => (Raise e, io)
  | (Outside, io) => (Outside, io)
  end.

(** One round of the loop over [project_root.rglob]. *)
Definition rewrite_file (args : Namespace) (made_decisions : gmap string obj)
    (file : list string) (w : world) : result unit * world :=
  if String.eqb (Path.suffix file) ".bkp" then (Ok tt, w)
  else if String.eqb (Path.name file) "README.md" then (Ok tt, w)
  else
    match read_text file w with
    | Raise UnicodeError => (Ok tt, w)
    | Raise e => (Raise e, w)
    | Outside => (Outside, w)
    | Ok original =>
        let '(r, w) :=
          if backup args && Placeholder.search original
          then
            match Path.with_suffix file ".bkp" with
            | Ok bkp => write_text bkp original w
            | Raise e => (Raise e, w)
            | Outside => (Outside, w)
            end
          else (Ok tt, w) in
        match r with
        | Ok _ =>
            (* [pattern.sub(repl, original)]: the new text is not used *)
            let '(r, io) := sub made_decisions original (io w) in
            (bind r (fun _ => Ok tt), mkWorld io (files w))
        | Raise e => (Raise e, w)
        | Outside => (Outside, w)
        end
    end.

Fixpoint rewrite (args : Namespace) (made_decisions : gmap string obj)
    (listing : list (list string)) (w : world) : result unit * world :=
  match listing with
  | [] => (Ok tt, w)
  | file :: rest =>
      match rewrite_file args made_decisions file w with
      | (Ok _, w) => rewrite args made_decisions rest w
      | (Raise e, w) => (Raise e, w)
      | (Outside, w) => (Outside, w)
      end
  end.

(** The package directory and its version file.  [project_root / pkg_name]
    needs a string; a package name has no path separator. *)
Definition make_package (root : list string) (made_decisions : gmap string obj)
    (w : world) : result unit * world :=
  match made_decisions !! "package" with
  | None => (Raise (KeyError "package"), w)
  | Some (PyStr pkg_name) =>
      let package_dir := Path.child root pkg_name in
      match mkdir package_dir w with
      | (Ok _, w) =>
          write_text (Path.child package_dir "_version.py") "__version__ = 0.0.1dev" w
      | (Raise e, w) => (Raise e, w)
      | (Outside, w) => (Outside, w)
      end
  | Some _ => (Raise TypeError, w)
  end.

(** [main] after the probes: the questions, the confirmation, the loop
    over the files and the package directory.  The body of the final
    [if args.del_script:] is missing from the source; nothing is done for
    it. *)
Definition main_from (table : list (string * ConstResolver)) (args : Namespace)
    (root : list string) (listing : list (list string)) (w : world)
    : result unit * world :=
  match make_all table ∅ (io w) with
  | (Ok made_decisions, io) =>
      match confirm made_decisions io with
      | (Ok _, io) =>
          match rewrite args made_decisions listing (mkWorld io (files w)) with
          | (Ok _, w) => make_package root made_decisions w
          | (Raise e, w) => (Raise e, w)
          | (Outside, w) => (Outside, w)
          end
      | (Raise e, io) => (Raise e, mkWorld io (files w))
      | (Outside, io) => (Outside, mkWorld io (files w))
      end
  | (Raise e, io) => (Raise e, mkWorld io (files w))
  | (Outside, io) => (Outside, mkWorld io (files w))
  end.

Definition main (env : environment) (args : Namespace) (w : world)
    : result unit * world :=
  match probe env with
  | Ok table => main_from table args (project_root env) (rglob env (project_root env)) w
  | Raise e => (Raise e, w)
  | Outside => (Outside, w)
  end.

(** ** Statements used by the properties below *)

(** The body of [inner], with its recursive call left as a call. *)
Definition inner_body (made_decisions : gmap string obj) (x : string) (io : console)
    : result obj * console :=
  let '(first, _, second) := Str.partition "!" x in
  if String.eqb second "" then
    match made_decisions !! first with
    | Some v => (Ok v, io)
    | None => (Raise (KeyError first), io)
    end
  else
    match inner made_decisions first io with
    | (Ok evaled_first, io1) => inner_second evaled_first second io1
    | (Raise e, io1) => (Raise e, io1)
    | (Outside, io1) => (Outside, io1)
    end.

(** Exactly four decimal digits. *)
Definition four_digits (x : string) : bool :=
  (String.length x =? 4)%nat && Str.all Str.isdigit x.

(** One or more characters of a class. *)
Definition run (p : ascii -> bool) (s : string) : Prop :=
  s <> "" /\ Str.all p s = true.

(** One author, [Name <email>]: a name of letters, digits, underscores
    and white space, one white-space character, and between angle
    brackets two runs of letters, digits, dots and underscores with an
    at-sign between them. *)
Definition author_entry (g : string) : Prop :=
  exists (name : string) (sp : ascii) (local domain : string),
    g = name +:+ String sp "" +:+ "<" +:+ local +:+ "@" +:+ domain +:+ ">"
    /\ run Re.name_char name
    /\ Str.isspace sp = true
    /\ run Re.addr_char local
    /\ run Re.addr_char domain.

(** What may follow the first author: a comma, white space if any,
    another author, and so on. *)
Inductive author_tail : string -> Prop :=
| tail_end : author_tail ""
| tail_more (ws g t : string) :
    Str.all Str.isspace ws = true ->
    author_entry g ->
    author_tail t ->
    author_tail ("," +:+ ws +:+ g +:+ t).

(** One or more authors separated by commas. *)
Definition author_list (x : string) : Prop :=
  exists g t : string, x = g +:+ t /\ author_entry g /\ author_tail t.

(** The resolvers of [year] and [authors] once options were added. *)
Definition year_resolver (options : list DecisionOption) : ConstResolver :=
  const_resolver options year_pattern.

Definition authors_resolver (options : list DecisionOption) : ConstResolver :=
  mkResolver AuthorsResolverCls (Some authors_pattern)
    "name <email>[, name <email>...]" options.

(** What [main] does after a blank confirmation line: the loop over the
    files, then the package directory. *)
Definition proceed (args : Namespace) (root : list string)
    (listing : list (list string)) (made_decisions : gmap string obj) (w : world)
    : result unit * world :=
  match rewrite args made_decisions listing w with
  | (Ok _, w) => make_package root made_decisions w
  | (Raise e, w) => (Raise e, w)
  | (Outside, w) => (Outside, w)
  end.

(** ** Statements used by the further properties *)

(** A response that [make] answers with [could not parse]: it is not the
    letter that asks for custom text, and it is no number below the
    length of the option list. *)
Definition refused (self : ConstResolver) (response : string) : bool :=
  negb (String.eqb response "t")
  && match Py.int response with
     | Some response_int => negb (response_int <? Z.of_nat (length (options self)))
     | None => true
     end.

(** What [make] writes for a list of refused responses. *)
Definition complaints (self : ConstResolver) (name : string) (responses : list string)
    : list output :=
  flat_map (fun r => [Prompt (menu self name); Print ("could not parse " +:+ r)]) responses.

(** The text after the first author of a list: for each further author a
    comma, white space and the author. *)
Fixpoint more_authors (rest : list (string * string)) : string :=
  match rest with
  | [] => ""
  | (ws, g) :: rest => "," +:+ ws +:+ g +:+ more_authors rest
  end.

(** The body of [sub], with its recursive calls left as calls. *)
Definition sub_body (made_decisions : gmap string obj) (s : string) (io : console)
    : result string * console :=
  match s with
  | EmptyString => (Ok "", io)
  | String c t =>
      match Placeholder.match_here (String c t) with
      | Some (body, rest) =>
          match repl made_decisions body io with
          | (Ok text, io1) =>
              match sub made_decisions rest io1 with
              | (Ok out, io2) => (Ok (text +:+ out), io2)
              | (Raise e, io2) => (Raise e, io2)
              | (Outside, io2) => (Outside, io2)
              end
          | (Raise e, io1) => (Raise e, io1)
          | (Outside, io1) => (Outside, io1)
          end
      | None =>
          match sub made_decisions t io with
          | (Ok out, io1) => (Ok (String c out), io1)
          | (Raise e, io1) => (Raise e, io1)
          | (Outside, io1) => (Outside, io1)
          end
      end
  end.

(** A value that a resolver can give: one of its options, or free text
    that its pattern matches in full. *)
Definition resolved_by (self : ConstResolver) (v : obj) : Prop :=
  (exists o, In o (options self) /\ v = option_obj o)
  \/ (exists p x,
        pattern self = Some p /\ Re.fullmatch p x = true
        /\ v = match cls self with
               | ConstResolverCls => PyStr x
               | AuthorsResolverCls => Authors x
               end).

(** The table of decisions after the probes, by the options that were
    added. *)
Definition probed (folder year : string) (authors_options repo_options : list DecisionOption)
    : list (string * ConstResolver) :=
  [ ("package", const_resolver [mkOption "folder_name" (PyStr folder)] package_pattern);
    ("authors", authors_resolver authors_options);
    ("year", const_resolver [mkOption "current year" (PyStr year)] year_pattern);
    ("repo_link", const_resolver repo_options any_pattern);
    ("license", const_resolver license_options any_pattern);
    ("py_versions", const_resolver py_version_options any_pattern);
    ("os_platforms", const_resolver platform_options any_pattern);
    ("inital_version", const_resolver initial_version_options any_pattern) ].

(** ** Formatting the license texts *)

Module Format.

(** A replacement field that is a plain key of the mapping: not empty,
    not a number, and without attribute, index, conversion or format
    parts.  Other fields are not covered. *)
Definition plain_field (field : string) : bool :=
  negb (String.eqb field "")
  && negb (Str.all Str.isdigit field)
  && negb (Str.contains "." field || Str.contains "[" field || Str.contains "!" field
           || Str.contains ":" field || Str.contains "{" field).

(** [s.format_map(m)], reading [s] from the left; [field] holds the
    characters of the replacement field that is open, if one is.  A
    doubled brace stands for the brace, a field is replaced by the text
    of the value the mapping has for it, a missing key raises
    [KeyError], and a brace without its partner raises [ValueError]. *)
Fixpoint str_format_map (s : string) (field : option string) (m : gmap string obj)
    : result string :=
  match s with
  | EmptyString =>
      match field with
      | None => Ok ""
      | Some EmptyString => Raise (ValueError "Single '{' encountered in format string")
      | Some _ => Raise (ValueError "expected '}' before end of string")
      end
  | String c t =>
      match field with
      | Some name =>
          if Ascii.eqb c "}" then
            if plain_field name then
              match m !! name with
              | Some v => bind (str_format_map t None m) (fun r => Ok (Py.str v +:+ r))
              | None => Raise (KeyError name)
              end
            else Outside
          else str_format_map t (Some (name +:+ String c "")) m
      | None =>
          if Ascii.eqb c "{" then
            match t with
            | String "{" t' => bind (str_format_map t' None m) (fun r => Ok (String "{" r))
            | _ => str_format_map t (Some "") m
            end
          else if Ascii.eqb c "}" then
            match t with
            | String "}" t' => bind (str_format_map t' None m) (fun r => Ok (String "}" r))
            | _ => Raise (ValueError "Single '}' encountered in format string")
            end
          else bind (str_format_map t None m) (fun r => Ok (String c r))
      end
  end.

End Format.

(** [License.format_map]. *)
Definition format_map (self_long self_short : string) (m : gmap string obj) : result obj :=
  bind (Format.str_format_map self_long None m) (fun long =>
  bind (Format.str_format_map self_short None m) (fun short =>
  Ok (License long short))).

(** [hasattr(v, attr)]. *)
Definition hasattr (v : obj) (attr : string) : result bool :=
  match getattr v attr with
  | Ok PyNone =>
      Ok (match v with
          | OptionObj _ PyNone => String.eqb attr "value"
          | _ => false
          end)
  | Ok _ => Ok true
  | Raise e => Raise e
  | Outside => Outside
  end.

(** [v.format_map(m)] for a license or a string; other objects are not
    covered. *)
Definition value_format_map (v : obj) (m : gmap string obj) : result obj :=
  match v with
  | License long short => format_map long short m
  | PyStr s => bind (Format.str_format_map s None m) (fun r => Ok (PyStr r))
  | _ => Outside
  end.

(** A set built from a list of options, in the order in which the
    options come first. *)
Definition set_of (l : list DecisionOption) : list DecisionOption :=
  fold_left (fun acc o => if existsb (option_eqb o) acc then acc else (acc ++ [o])%list) l [].

(** The options of the set comprehension of [load_resolved], one by
    one. *)
Fixpoint load_options (l : list DecisionOption) (resolved : gmap string obj)
    : result (list DecisionOption) :=
  match l with
  | [] => Ok []
  | do :: rest =>
      bind (hasattr (value do) "format_mapped") (fun formatted =>
      bind (if formatted : bool then value_format_map (value do) resolved
            else Ok (value do)) (fun v =>
      bind (load_options rest resolved) (fun r =>
      Ok (mkOption (name do) v :: r))))
  end.

(** [ConstResolver.load_resolved]: the resolver with its new option set. *)
Definition load_resolved (self : ConstResolver) (resolved : gmap string obj)
    : result ConstResolver :=
  bind (load_options (_options self) resolved) (fun l =>
  Ok (mkResolver (cls self) (pattern self) (pattern_description self) (set_of l))).

(** A text without braces. *)
Definition brace_free (s : string) : bool :=
  negb (Str.contains "{" s) && negb (Str.contains "}" s).

(** * Properties *)

(** ** The evaluator *)

Lemma inner_eq made_decisions x io :
  inner made_decisions x io = inner_body made_decisions x io.
Proof.
  unfold inner_body.
  funelim (inner made_decisions x io); rewrite Hp; simpl;
    repeat match goal with
    | H : String.eqb _ _ = _ |- _ => rewrite H
    | H : inner _ _ _ = (_, _) |- _ => rewrite H
    end; reflexivity.
Qed.

Lemma partition_no_sep sep x :
  Str.contains sep x = false -> Str.partition sep x = (x, "", "").
Proof.
  induction x as [|c t IH]; simpl; [reflexivity|].
  destruct (Ascii.eqb c sep); simpl; [discriminate|].
  intros H. rewrite (IH H). reflexivity.
Qed.

(** C2. For every resolution map and every body without [!], the
    evaluator returns the textual form [str] of the value the map holds
    for that name, and raises [KeyError] (the unresolved reference) when
    the map has no such name; the console is not touched. *)
Theorem repl_bare_name (made_decisions : gmap string obj) (body : string) (io : console) :
  Str.contains "!" body = false ->
  repl made_decisions body io =
    (match made_decisions !! body with
     | Some v => Ok (Py.str v)
     | None => Raise (KeyError body)
     end, io).
Proof.
  intros Hbare. unfold repl.
  rewrite inner_eq. unfold inner_body.
  rewrite (partition_no_sep _ _ Hbare). simpl.
  destruct (made_decisions !! body); reflexivity.
Qed.

Lemma repl_bare_name_witness :
  let made : gmap string obj := {[ "package" := PyStr "widgets" ]} in
  let io := mkConsole [] [] in
  repl made "package" io = (Ok "widgets", io)
  /\ repl made "year" io = (Raise (KeyError "year"), io).
Proof.
  split.
  - exact (repl_bare_name {[ "package" := PyStr "widgets" ]} "package"
             (mkConsole [] []) eq_refl).
  - exact (repl_bare_name {[ "package" := PyStr "widgets" ]} "year"
             (mkConsole [] []) eq_refl).
Defined.

(** X21. What the fallback of a chained expression does for the three
    module-level helpers: whatever the first value is, the helper is
    called with [None] and raises [TypeError] before it asks anything. *)
Lemma hotswap_receives_None (v : obj) (second : string) (io : console) :
  getattr v second = Ok PyNone ->
  In second ["preferred"; "split"; "semver"] ->
  inner_second v second io = (Raise TypeError, io).
Proof.
  intros Hattr Hin. unfold inner_second. rewrite Hattr.
  simpl in Hin.
  destruct Hin as [<-|[<-|[<-|[]]]]; reflexivity.
Qed.

(** C3, at the input ['py_versions!preferred'] with the custom text
    ['3.10'] resolved for [py_versions]: the string has no attribute
    [preferred], so the text is evaluated as code and gives the helper
    [preferred]; the code calls it with [None], not with the value, and it
    raises [TypeError] without prompting.  Called with the value, the
    helper prompts for the result and returns the line read. *)
Theorem chained_fallback_is_called_with_None (io : console) :
  let made : gmap string obj := {[ "py_versions" := PyStr "3.10" ]} in
  getattr (PyStr "3.10") "preferred" = Ok PyNone
  /\ eval "preferred" = Ok preferred
  /\ repl made "py_versions!preferred" io = (Raise TypeError, io)
  /\ call1 preferred PyNone io = (Raise TypeError, io)
  /\ call1 preferred (PyStr "3.10") io =
       (let '(r, io') :=
          input ("enter result for custom text 3.10 with method preferred:" +:+ nl) io in
        (bind r (fun line => Ok (PyStr line)), io')).
Proof.
  cbv zeta. repeat split.
Qed.

(** ** Integers as text *)

Lemma digits_of_uint (u : uint) :
  Str.all Str.isdigit (NilEmpty.string_of_uint u) = true.
Proof. induction u; simpl; auto. Qed.

Lemma lstrip_digits s : Str.all Str.isdigit s = true -> Py.int_lstrip s = s.
Proof.
  destruct s as [|c t]; simpl; [reflexivity|].
  intros H. apply andb_prop in H as [Hc _].
  destruct (Py.int_space c) eqn:Hs; [|reflexivity].
  exfalso. unfold Str.isdigit, Py.int_space in *.
  repeat match goal with
  | H : _ && _ = true |- _ => apply andb_prop in H as [? ?]
  | H : _ || _ = true |- _ => apply orb_prop in H as [?|?]
  | H : (_ <=? _)%nat = true |- _ => apply Nat.leb_le in H
  | H : (_ =? _)%nat = true |- _ => apply Nat.eqb_eq in H
  end; lia.
Qed.

Lemma rstrip_digits s : Str.all Str.isdigit s = true -> Py.int_rstrip s = s.
Proof.
  induction s as [|c t IH]; simpl; [reflexivity|].
  intros H. apply andb_prop in H as [Hc Ht].
  rewrite (IH Ht). destruct t; [|reflexivity].
  destruct (Py.int_space c) eqn:Hs; [|reflexivity].
  exfalso. unfold Str.isdigit, Py.int_space in *.
  repeat match goal with
  | H : _ && _ = true |- _ => apply andb_prop in H as [? ?]
  | H : _ || _ = true |- _ => apply orb_prop in H as [?|?]
  | H : (_ <=? _)%nat = true |- _ => apply Nat.leb_le in H
  | H : (_ =? _)%nat = true |- _ => apply Nat.eqb_eq in H
  end; lia.
Qed.

Lemma int_digits_of_digits s :
  Str.all Str.isdigit s = true -> Py.int_digits s true = Some s.
Proof.
  induction s as [|c t IH]; simpl; [reflexivity|].
  intros H. apply andb_prop in H as [Hc Ht].
  rewrite Hc, (IH Ht). reflexivity.
Qed.

Lemma int_digits_nonempty s :
  Str.all Str.isdigit s = true -> s <> "" -> Py.int_digits s false = Some s.
Proof.
  destruct s as [|c t]; [congruence|]. simpl.
  intros H _. apply andb_prop in H as [Hc Ht].
  rewrite Hc, (int_digits_of_digits _ Ht). reflexivity.
Qed.

Lemma digit_not_sign c :
  Str.isdigit c = true -> Ascii.eqb c "-" = false /\ Ascii.eqb c "+" = false.
Proof.
  intros H. split; apply Ascii.eqb_neq; intros ->; discriminate.
Qed.

Lemma string_of_uint_nonempty u : u <> Nil -> NilEmpty.string_of_uint u <> "".
Proof. destruct u; simpl; congruence. Qed.

(** Reading the digits of a number gives the number back. *)
Lemma int_of_uint (u : uint) :
  u <> Nil ->
  Py.int (NilEmpty.string_of_uint u) = Some (Z.of_uint u)
  /\ Py.int (String "-" (NilEmpty.string_of_uint u)) = Some (- Z.of_uint u).
Proof.
  intros Hu.
  pose proof (digits_of_uint u) as Hd.
  pose proof (string_of_uint_nonempty u Hu) as Hne.
  unfold Py.int. split.
  - rewrite (lstrip_digits _ Hd), (rstrip_digits _ Hd).
    destruct (NilEmpty.string_of_uint u) as [|c t] eqn:E; [congruence|].
    pose proof Hd as Hd'. simpl in Hd'. apply andb_prop in Hd' as [Hc _].
    destruct (digit_not_sign c Hc) as [-> ->].
    rewrite (int_digits_nonempty _ Hd Hne), <- E, NilEmpty.usu. reflexivity.
  - change (Py.int_lstrip (String "-" ?s)) with (String "-"%char s).
    assert (Py.int_rstrip (String "-" (NilEmpty.string_of_uint u))
            = String "-" (NilEmpty.string_of_uint u)) as ->.
    { simpl. rewrite (rstrip_digits _ Hd).
      destruct (NilEmpty.string_of_uint u); [congruence|reflexivity]. }
    simpl. rewrite (int_digits_nonempty _ Hd Hne), NilEmpty.usu. reflexivity.
Qed.

(** [int(str(i)) == i]. *)
Lemma int_str_int (i : Z) : Py.int (Py.str_int i) = Some i.
Proof.
  destruct i as [|p|p]; [reflexivity| |].
  - unfold Py.str_int. simpl.
    pose proof (DecimalPos.Unsigned.to_uint_nonnil p) as Hn.
    unfold NilZero.string_of_uint.
    destruct (int_of_uint _ Hn) as [H _].
    destruct (Pos.to_uint p) eqn:E; try congruence; rewrite H;
      unfold Z.of_uint; rewrite <- E, DecimalPos.Unsigned.of_to; reflexivity.
  - unfold Py.str_int. simpl.
    pose proof (DecimalPos.Unsigned.to_uint_nonnil p) as Hn.
    unfold NilZero.string_of_uint.
    destruct (int_of_uint _ Hn) as [_ H].
    destruct (Pos.to_uint p) eqn:E; try congruence; rewrite H;
      unfold Z.of_uint; rewrite <- E, DecimalPos.Unsigned.of_to; reflexivity.
Qed.

(** The text of a number is never the letter that asks for custom text. *)
Lemma str_int_not_t (i : Z) : String.eqb (Py.str_int i) "t" = false.
Proof.
  apply String.eqb_neq. intros H.
  pose proof (int_str_int i) as Hi. rewrite H in Hi. discriminate.
Qed.

(** ** The resolver *)

(** What [make] does with a response that is the text of a number. *)
Lemma make_number (self : ConstResolver) (name : string) (i : Z)
    (lines : list string) (out : list output) :
  make self name (Py.str_int i :: lines) out =
    if i <? Z.of_nat (length (options self))
    then (bind (Py.index (options self) i) (fun o => Ok (option_obj o)),
          mkConsole lines (out ++ [Prompt (menu self name)]))
    else make self name lines
           (out ++ [Prompt (menu self name);
                    Print ("could not parse " +:+ Py.str_int i)]).
Proof.
  cbn [make]. rewrite int_str_int, str_int_not_t.
  destruct (i <? Z.of_nat (length (options self))); [reflexivity|].
  rewrite <- app_assoc. reflexivity.
Qed.

Lemma index_nat {A} (l : list A) (k : nat) (a : A) :
  l !! k = Some a -> Py.index l (Z.of_nat k) = Ok a.
Proof.
  intros H. pose proof (lookup_lt_Some _ _ _ H) as Hlt.
  unfold Py.index.
  destruct (Z.of_nat k <? 0) eqn:E; [apply Z.ltb_lt in E; lia|].
  replace (0 <=? Z.of_nat k) with true by (symmetry; apply Z.leb_le; lia).
  replace (Z.of_nat k <? Z.of_nat (length l)) with true
    by (symmetry; apply Z.ltb_lt; lia).
  simpl. rewrite Nat2Z.id, H. reflexivity.
Qed.

Lemma index_negative {A} (l : list A) (k : nat) :
  (1 <= k <= length l)%nat ->
  exists a, l !! (length l - k)%nat = Some a
            /\ Py.index l (- Z.of_nat k) = Ok a.
Proof.
  intros Hk.
  destruct (lookup_lt_is_Some_2 l (length l - k)%nat ltac:(lia)) as [a Ha].
  exists a. split; [exact Ha|].
  unfold Py.index.
  replace (- Z.of_nat k <? 0) with true by (symmetry; apply Z.ltb_lt; lia).
  replace (0 <=? - Z.of_nat k + Z.of_nat (length l)) with true
    by (symmetry; apply Z.leb_le; lia).
  replace (- Z.of_nat k + Z.of_nat (length l) <? Z.of_nat (length l)) with true
    by (symmetry; apply Z.ltb_lt; lia).
  simpl.
  replace (Z.to_nat (- Z.of_nat k + Z.of_nat (length l))) with (length l - k)%nat by lia.
  rewrite Ha. reflexivity.
Qed.

(** The number [k] selects the option at the zero-based position [k],
    which the menu shows under [k + 1]; what is returned is the option
    itself. *)
Lemma make_zero_based (self : ConstResolver) (name : string) (k : nat)
    (o : DecisionOption) (lines : list string) (out : list output) :
  options self !! k = Some o ->
  make self name (Py.str_int (Z.of_nat k) :: lines) out =
    (Ok (option_obj o), mkConsole lines (out ++ [Prompt (menu self name)])).
Proof.
  intros H. rewrite make_number.
  pose proof (lookup_lt_Some _ _ _ H) as Hlt.
  replace (Z.of_nat k <? Z.of_nat (length (options self))) with true
    by (symmetry; apply Z.ltb_lt; lia).
  rewrite (index_nat _ _ _ H). reflexivity.
Qed.

(** The last number of the menu is not accepted. *)
Lemma make_last_number_refused (self : ConstResolver) (name : string)
    (lines : list string) (out : list output) :
  let n := Z.of_nat (length (options self)) in
  make self name (Py.str_int n :: lines) out =
    make self name lines
      (out ++ [Prompt (menu self name); Print ("could not parse " +:+ Py.str_int n)]).
Proof.
  cbv zeta. rewrite make_number, Z.ltb_irrefl. reflexivity.
Qed.

(** C4, at a menu of two options: the menu numbers them 1 and 2;
    entering 1 returns the second option (the [DecisionOption] object,
    not the value of the first), and entering 2 is answered by
    [could not parse 2] and the menu again. *)
Theorem make_menu_numbers_are_off_by_one (lines : list string) (out : list output) :
  let self :=
    const_resolver [mkOption "a" (PyStr "alpha"); mkOption "b" (PyStr "beta")] any_pattern in
  menu self "x" =
    Str.join nl ["enter value for x:"; "1: a (alpha)"; "2: b (beta)"; "t: custom text"] +:+ nl
  /\ make self "x" ("1" :: lines) out =
       (Ok (OptionObj "b" (PyStr "beta")), mkConsole lines (out ++ [Prompt (menu self "x")]))
  /\ make self "x" ("2" :: lines) out =
       make self "x" lines (out ++ [Prompt (menu self "x"); Print "could not parse 2"]).
Proof.
  cbv zeta. split; [reflexivity|]. split.
  - exact (make_zero_based
             (const_resolver [mkOption "a" (PyStr "alpha"); mkOption "b" (PyStr "beta")]
                any_pattern) "x" 1 (mkOption "b" (PyStr "beta")) lines out eq_refl).
  - exact (make_last_number_refused
             (const_resolver [mkOption "a" (PyStr "alpha"); mkOption "b" (PyStr "beta")]
                any_pattern) "x" lines out).
Qed.

(** C10. For every resolver with a non-empty option list and every [k]
    from 1 to the length of the list, the response that is the text of
    [-k] is accepted: [make] returns the option [k] places from the end
    and reads nothing more. *)
Theorem make_negative_number (self : ConstResolver) (name : string) (k : nat)
    (lines : list string) (out : list output) :
  (1 <= k <= length (options self))%nat ->
  exists o : DecisionOption,
    options self !! (length (options self) - k)%nat = Some o
    /\ make self name (Py.str_int (- Z.of_nat k) :: lines) out =
         (Ok (option_obj o), mkConsole lines (out ++ [Prompt (menu self name)])).
Proof.
  intros Hk. destruct (index_negative (options self) k Hk) as [o [Ho Hi]].
  exists o. split; [exact Ho|].
  rewrite make_number.
  replace (- Z.of_nat k <? Z.of_nat (length (options self))) with true
    by (symmetry; apply Z.ltb_lt; lia).
  rewrite Hi. reflexivity.
Qed.

Lemma make_negative_number_witness :
  let self := const_resolver platform_options any_pattern in
  exists o : DecisionOption,
    options self !! 6%nat = Some o
    /\ make self "os_platforms" ["-1"] [] =
         (Ok (option_obj o), mkConsole [] [Prompt (menu self "os_platforms")]).
Proof.
  exact (make_negative_number (const_resolver platform_options any_pattern)
           "os_platforms" 1 [] [] ltac:(simpl; lia)).
Defined.

(** ** Patterns *)

Lemma append_cons (x : ascii) (a b : string) : String x a +:+ b = String x (a +:+ b).
Proof. reflexivity. Qed.

Lemma append_nil_l (b : string) : "" +:+ b = b.
Proof. reflexivity. Qed.

Lemma append_assoc (a b c : string) : (a +:+ b) +:+ c = a +:+ b +:+ c.
Proof.
  induction a as [|x a IH]; [reflexivity|].
  rewrite !append_cons, IH. reflexivity.
Qed.

Lemma append_eq_nil (a b : string) : a +:+ b = "" -> a = "" /\ b = "".
Proof. destruct a; [auto|discriminate]. Qed.

Lemma nullable_Matches r : Re.nullable r = true <-> Re.Matches r "".
Proof.
  split.
  - induction r; simpl; intros H; try discriminate.
    + constructor.
    + apply andb_prop in H as [H1 H2].
      change "" with ("" +:+ ""). constructor; auto.
    + apply orb_prop in H as [H|H]; [apply Re.MAltL|apply Re.MAltR]; auto.
    + constructor.
  - intros H. remember "" as s eqn:Es.
    induction H; simpl; try reflexivity; try discriminate.
    + apply append_eq_nil in Es as [-> ->].
      rewrite IHMatches1, IHMatches2; reflexivity.
    + rewrite IHMatches; auto.
    + rewrite IHMatches; auto using orb_true_r.
Qed.

Lemma deriv_sound c r s : Re.Matches (Re.deriv c r) s -> Re.Matches r (String c s).
Proof.
  revert s. induction r; simpl; intros s H.
  - inversion H.
  - inversion H.
  - destruct (p c) eqn:E; inversion H; subst. constructor; exact E.
  - assert (forall u, Re.Matches (Cat (Re.deriv c r1) r2) u ->
                      Re.Matches (Cat r1 r2) (String c u)) as Hcat.
    { intros u Hu. inversion Hu; subst.
      change (String c (s1 +:+ s2)) with (String c s1 +:+ s2).
      constructor; auto. }
    destruct (Re.nullable r1) eqn:E; [|auto].
    inversion H; subst; [auto|].
    change (String c s) with ("" +:+ String c s).
    constructor; [apply nullable_Matches; exact E|auto].
  - inversion H; subst; [apply Re.MAltL|apply Re.MAltR]; auto.
  - inversion H; subst.
    change (String c (s1 +:+ s2)) with (String c s1 +:+ s2).
    constructor; auto.
Qed.

Lemma deriv_complete c r w :
  Re.Matches r w -> forall s, w = String c s -> Re.Matches (Re.deriv c r) s.
Proof.
  induction 1; intros u Eu; simpl; try discriminate.
  - inversion Eu; subst. rewrite H. constructor.
  - destruct s1 as [|x s1]; rewrite ?append_cons, ?append_nil_l in Eu.
    + subst s2.
      replace (Re.nullable r1) with true
        by (symmetry; apply nullable_Matches; assumption).
      apply Re.MAltR. auto.
    + inversion Eu; subst.
      assert (Re.Matches (Cat (Re.deriv c r1) r2) (s1 +:+ s2))
        by (constructor; auto).
      destruct (Re.nullable r1); [apply Re.MAltL|]; assumption.
  - apply Re.MAltL; auto.
  - apply Re.MAltR; auto.
  - destruct s1 as [|x s1]; rewrite ?append_cons, ?append_nil_l in Eu.
    + apply IHMatches2 in Eu. exact Eu.
    + inversion Eu; subst. constructor; auto.
Qed.

(** [fullmatch] decides the language of the pattern. *)
Lemma fullmatch_Matches r s : Re.fullmatch r s = true <-> Re.Matches r s.
Proof.
  revert r. induction s as [|c t IH]; intros r; simpl.
  - apply nullable_Matches.
  - rewrite IH. split; [apply deriv_sound|].
    intros H. eapply deriv_complete; eauto.
Qed.

Lemma Matches_Cat r1 r2 s :
  Re.Matches (Cat r1 r2) s <->
  exists s1 s2, s = s1 +:+ s2 /\ Re.Matches r1 s1 /\ Re.Matches r2 s2.
Proof.
  split.
  - intros H. inversion H; subst. eauto.
  - intros (s1 & s2 & -> & H1 & H2). constructor; auto.
Qed.

Lemma Matches_Class p s :
  Re.Matches (Class p) s <-> exists c, s = String c "" /\ p c = true.
Proof.
  split.
  - intros H. inversion H; subst. eauto.
  - intros (c & -> & H). constructor; auto.
Qed.

Lemma Matches_Chr c s : Re.Matches (Re.Chr c) s <-> s = String c "".
Proof.
  unfold Re.Chr. rewrite Matches_Class. split.
  - intros (x & -> & H). apply Ascii.eqb_eq in H. subst. reflexivity.
  - intros ->. exists c. split; [reflexivity|apply Ascii.eqb_refl].
Qed.

Lemma all_app p a b : Str.all p (a +:+ b) = Str.all p a && Str.all p b.
Proof.
  induction a as [|x a IH]; [reflexivity|].
  rewrite append_cons. simpl. rewrite IH, andb_assoc. reflexivity.
Qed.

Lemma Matches_Star_Class p s :
  Re.Matches (Star (Class p)) s <-> Str.all p s = true.
Proof.
  split.
  - intros H. remember (Star (Class p)) as r eqn:Er.
    induction H; inversion Er; subst; [reflexivity|].
    rewrite all_app, IHMatches2 by reflexivity.
    apply Matches_Class in H as (c & -> & Hc).
    simpl. rewrite Hc. reflexivity.
  - induction s as [|c t IH]; simpl; intros H; [constructor|].
    apply andb_prop in H as [Hc Ht].
    change (String c t) with (String c "" +:+ t).
    constructor; [constructor; exact Hc|auto].
Qed.

Lemma Matches_Plus_Class p s :
  Re.Matches (Re.Plus (Class p)) s <-> run p s.
Proof.
  unfold Re.Plus, run. rewrite Matches_Cat. split.
  - intros (s1 & s2 & -> & H1 & H2).
    apply Matches_Class in H1 as (c & -> & Hc).
    apply Matches_Star_Class in H2.
    rewrite append_cons, append_nil_l.
    simpl. rewrite Hc, H2. split; [discriminate|reflexivity].
  - intros [Hne H]. destruct s as [|c t]; [congruence|].
    simpl in H. apply andb_prop in H as [Hc Ht].
    exists (String c ""), t. split; [reflexivity|]. split.
    + constructor; exact Hc.
    + apply Matches_Star_Class; exact Ht.
Qed.

Lemma author_pattern_entry g : Re.Matches author_pattern g <-> author_entry g.
Proof.
  unfold author_pattern, author_entry. split.
  - intros H.
    apply Matches_Cat in H as (name & s1 & -> & Hname & H).
    apply Matches_Cat in H as (sp & s2 & -> & Hsp & H).
    apply Matches_Cat in H as (lt & s3 & -> & Hlt & H).
    apply Matches_Cat in H as (loc & s4 & -> & Hloc & H).
    apply Matches_Cat in H as (at_ & s5 & -> & Hat & H).
    apply Matches_Cat in H as (dom & gt & -> & Hdom & Hgt).
    apply Matches_Plus_Class in Hname, Hloc, Hdom.
    apply Matches_Class in Hsp as (c & -> & Hc).
    apply Matches_Chr in Hlt, Hat, Hgt. subst.
    exists name, c, loc, dom. auto.
  - intros (name & sp & loc & dom & -> & Hname & Hsp & Hloc & Hdom).
    repeat (apply Re.MCat);
      try (apply Matches_Plus_Class; assumption);
      try (apply Matches_Chr; reflexivity).
    constructor; exact Hsp.
Qed.

Lemma authors_tail t :
  Re.Matches (Star (Cat (Re.Chr ",") (Cat (Star (Class Str.isspace)) author_pattern))) t
  <-> author_tail t.
Proof.
  split.
  - intros H.
    remember (Star (Cat (Re.Chr ",") (Cat (Star (Class Str.isspace)) author_pattern)))
      as r eqn:Er.
    induction H; inversion Er; subst; [constructor|].
    apply Matches_Cat in H as (comma & u & -> & Hcomma & H).
    apply Matches_Cat in H as (ws & g & -> & Hws & Hg).
    apply Matches_Chr in Hcomma. subst comma.
    apply Matches_Star_Class in Hws. apply author_pattern_entry in Hg.
    rewrite !append_assoc.
    constructor; auto.
  - induction 1; [constructor|].
    replace ("," +:+ ws +:+ g +:+ t) with (("," +:+ ws +:+ g) +:+ t)
      by (rewrite !append_assoc; reflexivity).
    constructor; [|assumption].
    apply Re.MCat; [apply Matches_Chr; reflexivity|].
    apply Re.MCat; [apply Matches_Star_Class; assumption|].
    apply author_pattern_entry; assumption.
Qed.

(** The pattern of [AuthorsResolver] accepts the author lists. *)
Lemma authors_pattern_list x :
  Re.fullmatch authors_pattern x = true <-> author_list x.
Proof.
  rewrite fullmatch_Matches. unfold authors_pattern, author_list.
  rewrite Matches_Cat. split.
  - intros (g & t & -> & Hg & Ht). exists g, t.
    split; [reflexivity|]. split; [apply author_pattern_entry|apply authors_tail]; assumption.
  - intros (g & t & -> & Hg & Ht). exists g, t.
    split; [reflexivity|]. split; [apply author_pattern_entry|apply authors_tail]; assumption.
Qed.

Lemma fullmatch_Void s : Re.fullmatch Void s = false.
Proof. induction s; simpl; auto. Qed.

Lemma fullmatch_Cat_Void r s : Re.fullmatch (Cat Void r) s = false.
Proof. induction s; simpl; auto. Qed.

Lemma fullmatch_Alt r1 r2 s :
  Re.fullmatch (Alt r1 r2) s = Re.fullmatch r1 s || Re.fullmatch r2 s.
Proof. revert r1 r2. induction s; simpl; intros; auto. Qed.

Lemma fullmatch_Eps s : Re.fullmatch Eps s = String.eqb s "".
Proof. destruct s; simpl; [reflexivity|apply fullmatch_Void]. Qed.

Lemma fullmatch_Cat_Eps r s : Re.fullmatch (Cat Eps r) s = Re.fullmatch r s.
Proof.
  destruct s; simpl; [reflexivity|].
  rewrite fullmatch_Alt, fullmatch_Cat_Void. reflexivity.
Qed.

Lemma fullmatch_Cat_Class p r s :
  Re.fullmatch (Cat (Class p) r) s =
    match s with
    | EmptyString => false
    | String c t => p c && Re.fullmatch r t
    end.
Proof.
  destruct s as [|c t]; simpl; [reflexivity|].
  destruct (p c); simpl; [apply fullmatch_Cat_Eps|apply fullmatch_Cat_Void].
Qed.

(** The pattern of [year] accepts exactly the texts of four digits. *)
Lemma year_pattern_four_digits x :
  Re.fullmatch year_pattern x = four_digits x.
Proof.
  unfold year_pattern, four_digits. simpl Re.Repeat.
  do 4 (rewrite fullmatch_Cat_Class; destruct x as [|? x]; [reflexivity|];
        simpl Str.all; destruct (Str.isdigit _);
        [rewrite ?andb_true_l|rewrite ?andb_false_l, ?andb_false_r; reflexivity]).
  rewrite fullmatch_Eps. destruct x; simpl; [reflexivity|].
  rewrite ?andb_false_l. reflexivity.
Qed.

(** ** Free text *)

(** What [make] does when custom text is asked for. *)
Lemma make_custom (self : ConstResolver) (name : string)
    (custom_fn : string -> result obj) (custom : string)
    (lines : list string) (out : list output) :
  custom_option self = Some custom_fn ->
  make self name ("t" :: custom :: lines) out =
    let asked :=
      (out ++ [Prompt (menu self name); Prompt ("enter custom text:" +:+ nl)])%list in
    match custom_fn custom with
    | Ok v => (Ok v, mkConsole lines asked)
    | Raise e =>
        if is_Exception e
        then make self name lines
               (asked ++ [Print (exn_str e); Print "could not parse t"])%list
        else (Raise e, mkConsole lines asked)
    | Outside => (Outside, mkConsole lines asked)
    end.
Proof.
  intros Hc. cbn [make].
  change (Py.int "t") with (@None Z). change (String.eqb "t" "t") with true.
  cbv iota beta. rewrite Hc. cbv zeta.
  rewrite <- !app_assoc. reflexivity.
Qed.

(** C8. Custom text for [year] is accepted exactly when it consists of
    four decimal digits: [make] then returns the text; for any other text
    it prints the complaint and starts again with the menu on the lines
    that remain.  [99] and [20x1] are such other texts. *)
Theorem year_free_text (options : list DecisionOption) (x : string)
    (lines : list string) (out : list output) :
  let self := year_resolver options in
  let asked :=
    (out ++ [Prompt (menu self "year"); Prompt ("enter custom text:" +:+ nl)])%list in
  Re.fullmatch year_pattern x = four_digits x
  /\ make self "year" ("t" :: x :: lines) out =
       (if four_digits x
        then (Ok (PyStr x), mkConsole lines asked)
        else make self "year" lines
               (asked ++ [Print "must match pattern"; Print "could not parse t"])%list)
  /\ four_digits "99" = false
  /\ four_digits "20x1" = false
  /\ decisions !! 2%nat = Some ("year", year_resolver []).
Proof.
  cbv zeta. split; [apply year_pattern_four_digits|].
  split; [|repeat split].
  rewrite (make_custom (year_resolver options) "year" _ x lines out eq_refl).
  cbv zeta. unfold validate. simpl pattern_description.
  rewrite year_pattern_four_digits.
  destruct (four_digits x); reflexivity.
Qed.

(** C9. Custom text for [authors] is accepted exactly when the whole text
    is a list of one or more authors separated by commas: [make] then
    returns the [Authors] object built from it; for any other text it
    prints the complaint and starts again with the menu.  The text
    [Ann Lee <ann@x.com>, Bo <bo@y.org>] is accepted and gives two
    authors; [Ann Lee] is not accepted. *)
Theorem authors_free_text (options : list DecisionOption) (x : string)
    (lines : list string) (out : list output) :
  let self := authors_resolver options in
  let asked :=
    (out ++ [Prompt (menu self "authors"); Prompt ("enter custom text:" +:+ nl)])%list in
  (Re.fullmatch authors_pattern x = true <-> author_list x)
  /\ make self "authors" ("t" :: x :: lines) out =
       (if Re.fullmatch authors_pattern x
        then (Ok (Authors x), mkConsole lines asked)
        else make self "authors" lines
               (asked ++ [Print "must match name <email>[, name <email>...]";
                          Print "could not parse t"])%list)
  /\ Re.fullmatch authors_pattern "Ann Lee <ann@x.com>, Bo <bo@y.org>" = true
  /\ Authors "Ann Lee <ann@x.com>, Bo <bo@y.org>" =
       AuthorsObj ["Ann Lee <ann@x.com>"; "Bo <bo@y.org>"]
  /\ Re.fullmatch authors_pattern "Ann Lee" = false
  /\ decisions !! 1%nat = Some ("authors", authors_resolver []).
Proof.
  cbv zeta. split; [apply authors_pattern_list|].
  split; [|repeat split].
  rewrite (make_custom (authors_resolver options) "authors" _ x lines out eq_refl).
  cbv zeta. unfold validate. simpl pattern_description.
  destruct (Re.fullmatch authors_pattern x); reflexivity.
Qed.

(** ** describe *)

Lemma length_append (a b : string) :
  String.length (a +:+ b) = (String.length a + String.length b)%nat.
Proof.
  induction a as [|x a IH]; [reflexivity|].
  rewrite append_cons. simpl. rewrite IH. reflexivity.
Qed.

Lemma length_take (k : nat) (s : string) :
  (k <= String.length s)%nat -> String.length (Str.take k s) = k.
Proof.
  revert s. induction k as [|k IH]; intros [|c t]; simpl; intros H;
    try reflexivity; try lia.
  rewrite IH by lia. reflexivity.
Qed.

Lemma length_drop (k : nat) (s : string) :
  String.length (Str.drop k s) = (String.length s - k)%nat.
Proof.
  revert s. induction k as [|k IH]; intros [|c t]; simpl; try reflexivity.
  apply IH.
Qed.

(** C7, as amended.  For every option whose value is a string,
    [describe] returns a text that begins with the name in full and is
    never longer than the larger of [DESCRIPTION_MAX_LEN] and the length
    of the name, so at most 20 characters when the name has at most 20.
    With [room] the 20 characters less the name and the three of the
    parentheses and the space, and [shown] the value itself, or two quote
    characters for the empty value:
    - a shown value of at most [room] characters is given whole, in
      parentheses after the name;
    - a longer one, after a name of at most 12 characters, is cut in the
      middle: its first [k] and last [k] characters are kept and joined
      by two dots, with [k] half of [room - 2], rounded down, at least 1
      and less than half the length of the value;
    - a longer one, after a name of more than 12 characters, is left
      out: the result is the name alone.  This is so whenever the name
      has 17 characters or more, since [room] is then at most 0. *)
Theorem describe_of_string (n v : string) :
  exists s : string,
    describe (mkOption n (PyStr v)) = Ok s
    /\ (Z.of_nat (String.length s)
        <= Z.max DESCRIPTION_MAX_LEN (Z.of_nat (String.length n)))
    /\ (exists t : string, s = n +:+ t)
    /\ let shown := if String.eqb v "" then "''" else v in
       let room := DESCRIPTION_MAX_LEN - Z.of_nat (String.length n) - 3 in
       let k := Z.to_nat ((room - 2) / 2) in
       (Z.of_nat (String.length shown) <= room ->
          s = n +:+ " (" +:+ shown +:+ ")")
       /\ (room < Z.of_nat (String.length shown) ->
           (String.length n <= 12)%nat ->
             (1 <= k)%nat /\ (2 * k < String.length v)%nat
             /\ String.length (Str.take k v) = k
             /\ String.length (Str.drop (String.length v - k) v) = k
             /\ s = n +:+ " (" +:+ Str.take k v +:+ ".."
                      +:+ Str.drop (String.length v - k) v +:+ ")")
       /\ (room < Z.of_nat (String.length shown) ->
           (12 < String.length n)%nat -> s = n).
Proof.
  assert (Hnil : forall a : string, a = a +:+ "").
  { induction a as [|x a IH]; [reflexivity|].
    rewrite append_cons, <- IH. reflexivity. }
  unfold describe, DESCRIPTION_MAX_LEN. cbn [name value].
  assert (Hpv : (if Py.truthy (PyStr v) then PyStr v else PyStr (Py.repr (PyStr v)))
                = PyStr (if String.eqb v "" then "''" else v)).
  { simpl. destruct (String.eqb_spec v ""); [subst|]; reflexivity. }
  rewrite Hpv. clear Hpv.
  set (pv := if String.eqb v "" then "''" else v).
  assert (Hpos : (1 <= String.length pv)%nat).
  { unfold pv. destruct (String.eqb_spec v "") as [->|Hv]; [simpl; lia|].
    destruct v; [congruence|simpl; lia]. }
  destruct (20 - Z.of_nat (String.length n) - 3 <=? 0) eqn:E0.
  { apply Z.leb_le in E0. exists n. split; [reflexivity|]. split; [lia|].
    split; [exists ""; apply Hnil|]. cbv zeta. repeat split; intros; lia. }
  apply Z.leb_gt in E0.
  cbn [Py.len bind].
  destruct (Z.of_nat (String.length pv) <=? 20 - Z.of_nat (String.length n) - 3) eqn:E1.
  { apply Z.leb_le in E1.
    exists (n +:+ " (" +:+ pv +:+ ")"). split; [reflexivity|]. split.
    - rewrite !length_append. simpl String.length. lia.
    - split; [eexists; reflexivity|]. cbv zeta. repeat split; intros; lia. }
  apply Z.leb_gt in E1.
  destruct (20 - Z.of_nat (String.length n) - 3 - 2 <=? 2) eqn:E2.
  { apply Z.leb_le in E2. exists n. split; [reflexivity|]. split; [lia|].
    split; [exists ""; apply Hnil|]. cbv zeta. repeat split; intros; lia. }
  apply Z.leb_gt in E2.
  assert (Hv : pv = v).
  { unfold pv in *. destruct (String.eqb v ""); [simpl in E1; lia|reflexivity]. }
  rewrite Hv in *. clear pv Hv.
  set (side := (20 - Z.of_nat (String.length n) - 3 - 2) / 2).
  assert (Hside : 1 <= side /\ 2 * side <= 20 - Z.of_nat (String.length n) - 3 - 2).
  { unfold side. split.
    - apply Z.div_le_lower_bound; lia.
    - apply Z.mul_div_le; lia. }
  cbn [Py.slice_to Py.slice_last bind Py.str].
  unfold Str.prefix, Str.suffix.
  set (k := Z.to_nat side).
  assert (Hk : (1 <= k)%nat /\ (2 * k < String.length v)%nat) by (unfold k; lia).
  assert (Ha : String.length (Str.take k v) = k) by (apply length_take; lia).
  assert (Hb : String.length (Str.drop (String.length v - k) v) = k)
    by (rewrite length_drop; lia).
  eexists. split; [reflexivity|]. split.
  { rewrite !length_append, Ha, Hb. simpl String.length. lia. }
  split; [eexists; reflexivity|]. cbv zeta. fold side. fold k.
  repeat split; intros; try lia; try assumption.
Qed.

(** The cases on options of the decision table's shape: a value that
    fits, the empty value, a value cut in the middle, and a value left
    out after a name of 14 characters. *)
Example describe_cases :
  describe (mkOption "year" (PyStr "2021")) = Ok "year (2021)"
  /\ describe (mkOption "year" (PyStr "")) = Ok "year ('')"
  /\ describe (mkOption "repo_link" (PyStr "https://github.com/ann/widgets"))
     = Ok "repo_link (htt..ets)"
  /\ describe (mkOption "package_folder" (PyStr "widgets")) = Ok "package_folder".
Proof. repeat split. Qed.

(** C7 as written fails for a long name: [describe] returns the name in
    full, here 22 characters. *)
Lemma describe_long_name :
  describe (mkOption "initial_version_number" (PyStr "1")) = Ok "initial_version_number"
  /\ DESCRIPTION_MAX_LEN < Z.of_nat (String.length "initial_version_number").
Proof. split; reflexivity. Qed.

(** For a value that has no length, [describe] raises; for a list,
    [len] counts the items and not the characters shown. *)
Example describe_license :
  describe (mkOption "MIT" (License mit_text "MIT")) = Raise TypeError.
Proof. reflexivity. Qed.

Example describe_list :
  describe (mkOption "authors" (PyList ["Ann Lee <ann@x.com>"]))
  = Ok "authors (['Ann Lee <ann@x.com>'])".
Proof. reflexivity. Qed.

(** ** The rewrite pass *)






(** C1, at a project with the one file [setup.cfg] and the package
    resolved to [widgets].  With the text [<$ package $>] in the file the
    body of the placeholder keeps its blanks, the lookup raises
    [KeyError] and the pass ends.  With [<$package$>] the substitution
    yields the text with [widgets] and no delimiter, but the pass does
    not write it: the file holds the placeholder as before. *)
Theorem rewrite_does_not_write_back :
  let made : gmap string obj := {[ "package" := PyStr "widgets" ]} in
  let file := ["proj"; "setup.cfg"] in
  let console := mkConsole [] [] in
  let spaced := mkWorld console {[ file := Text "name = <$ package $>" ]} in
  let tight := mkWorld console {[ file := Text "name = <$package$>" ]} in
  rewrite (mkArgs false false) made [file] spaced = (Raise (KeyError " package "), spaced)
  /\ sub made "name = <$package$>" console = (Ok "name = widgets", console)
  /\ rewrite (mkArgs false false) made [file] tight = (Ok tt, tight)
  /\ read_text file tight = Ok "name = <$package$>".
Proof. cbv zeta. repeat split. Qed.




(** ** The confirmation *)

(** C5. Once every decision is made, [main] shows the decisions and reads
    one line.  If the line is not empty the run ends with
    [SystemExit(1)], a non-zero status, and the files are those of the
    start; if the line is empty the run goes on with the loop over the
    files. *)
Theorem confirmation (env : environment) (args : Namespace) (w : world)
    (table : list (string * ConstResolver))
    (made_decisions : gmap string obj) (asked : console)
    (response : string) (rest : list string) :
  probe env = Ok table ->
  make_all table ∅ (io w) = (Ok made_decisions, asked) ->
  stdin asked = response :: rest ->
  let shown :=
    mkConsole rest
      (stdout asked ++
       [Print ("You are about to fill the project with the following values."
               +:+ " Enter a blank line to proceed or any other input to cancel.");
        Pprint made_decisions]) in
  (response <> "" ->
     main env args w = (Raise (SystemExit 1), mkWorld shown (files w))
     /\ files (main env args w).2 = files w
     /\ 1 <> 0)
  /\ (response = "" ->
      main env args w =
        proceed args (project_root env) (rglob env (project_root env))
          made_decisions (mkWorld shown (files w))).
Proof.
  intros Hprobe Hmade Hin shown.
  unfold main, main_from. rewrite Hprobe, Hmade.
  unfold confirm, read_line, write. cbn [stdin stdout]. rewrite Hin.
  rewrite <- app_assoc. cbn [app].
  split.
  - intros Hne. apply String.eqb_neq in Hne. rewrite Hne. cbn [negb].
    split; [reflexivity|]. split; [reflexivity|lia].
  - intros ->. reflexivity.
Qed.

Lemma confirmation_witness :
  let env :=
    mkEnv ["home"; "proj"] 2020 (fun _ => Ok (1, "")) (fun root => [root ++ ["a.txt"]])%list in
  let w :=
    mkWorld (mkConsole ["t"; "widgets"; "t"; "Ann <a@b.c>"; "0"; "t"; "";
                        "0"; "0"; "0"; "0"; "no"] [])
            {[ ["home"; "proj"; "a.txt"] := Text "<$package$>" ]} in
  (main env (mkArgs false true) w).1 = Raise (SystemExit 1)
  /\ files (main env (mkArgs false true) w).2 = files w.
Proof.
  intros env w.
  pose (table := match probe env with Ok t => t | _ => [] end).
  pose (asked := (make_all table ∅ (io w)).2).
  pose (made := match (make_all table ∅ (io w)).1 with
                | Ok m => m
                | _ => ∅
                end).
  assert (Hprobe : probe env = Ok table) by (vm_compute; reflexivity).
  assert (Hmade : make_all table ∅ (io w) = (Ok made, asked))
    by (vm_compute; reflexivity).
  assert (Hin : stdin asked = ["no"]) by (vm_compute; reflexivity).
  destruct (confirmation env (mkArgs false true) w table made asked "no" []
              Hprobe Hmade Hin) as [Hno _].
  destruct (Hno ltac:(discriminate)) as (Hmain & Hfiles & _).
  split; [rewrite Hmain; reflexivity|exact Hfiles].
Defined.

(** * Further properties *)

(** ** The resolver, beyond the menu numbers *)

Lemma make_refused (self : ConstResolver) (name : string) (response : string)
    (lines : list string) (out : list output) :
  refused self response = true ->
  make self name (response :: lines) out =
    make self name lines (out ++ complaints self name [response]).
Proof.
  unfold refused. intros H. apply andb_prop in H as [Ht Hn].
  apply negb_true_iff in Ht.
  cbn [make]. rewrite Ht.
  destruct (Py.int response) as [i|].
  - rewrite (negb_true_iff _) in Hn. rewrite Hn.
    unfold complaints. cbn [flat_map app]. rewrite <- app_assoc. reflexivity.
  - unfold complaints. cbn [flat_map app]. rewrite <- app_assoc. reflexivity.
Qed.

Lemma make_refused_all (self : ConstResolver) (name : string)
    (junk lines : list string) (out : list output) :
  Forall (fun r => refused self r = true) junk ->
  make self name (junk ++ lines) out =
    make self name lines (out ++ complaints self name junk).
Proof.
  intros H. revert out. induction H as [|r junk Hr _ IH]; intros out.
  - unfold complaints. cbn [flat_map]. rewrite app_nil_r. reflexivity.
  - cbn [app]. rewrite (make_refused _ _ _ _ _ Hr), IH.
    unfold complaints. cbn [flat_map]. rewrite <- !app_assoc. reflexivity.
Qed.

(** X1. Responses that are neither an accepted number nor the letter
    [t] are skipped one by one: each is answered by the menu and
    [could not parse], and [make] then behaves as on the remaining
    lines.  When the input ends that way, [make] raises [EOFError] at
    the next menu. *)
Theorem make_skips_refused (self : ConstResolver) (name : string)
    (junk lines : list string) (out : list output) :
  Forall (fun r => refused self r = true) junk ->
  make self name (junk ++ lines) out =
    make self name lines (out ++ complaints self name junk)
  /\ make self name junk out =
       (Raise EOFError,
        mkConsole [] (out ++ complaints self name junk ++ [Prompt (menu self name)])).
Proof.
  intros H. split; [exact (make_refused_all self name junk lines out H)|].
  pose proof (make_refused_all self name junk [] out H) as E.
  rewrite app_nil_r in E. rewrite E. cbn [make].
  rewrite <- app_assoc. reflexivity.
Qed.

Lemma make_skips_refused_witness :
  let self := const_resolver platform_options any_pattern in
  make self "os_platforms" ["7"; "windows"; ""; "0"] [] =
    make self "os_platforms" ["0"] (complaints self "os_platforms" ["7"; "windows"; ""])
  /\ make self "os_platforms" ["7"; "windows"; ""] [] =
       (Raise EOFError,
        mkConsole [] (complaints self "os_platforms" ["7"; "windows"; ""]
                      ++ [Prompt (menu self "os_platforms")])).
Proof.
  exact (make_skips_refused (const_resolver platform_options any_pattern) "os_platforms"
           ["7"; "windows"; ""] ["0"] []
           ltac:(repeat constructor)).
Defined.

(** X2. A negative number whose magnitude exceeds the length of the
    option list is not refused: the list is indexed with it and [make]
    ends with [IndexError], nothing more being read or written. *)
Theorem make_negative_out_of_range (self : ConstResolver) (name : string) (k : nat)
    (lines : list string) (out : list output) :
  (length (options self) < k)%nat ->
  make self name (Py.str_int (- Z.of_nat k) :: lines) out =
    (Raise IndexError, mkConsole lines (out ++ [Prompt (menu self name)])).
Proof.
  intros Hk. rewrite make_number.
  replace (- Z.of_nat k <? Z.of_nat (length (options self))) with true
    by (symmetry; apply Z.ltb_lt; lia).
  unfold Py.index.
  replace (- Z.of_nat k <? 0) with true by (symmetry; apply Z.ltb_lt; lia).
  replace (0 <=? - Z.of_nat k + Z.of_nat (length (options self))) with false
    by (symmetry; apply Z.leb_gt; lia).
  reflexivity.
Qed.

Lemma make_negative_out_of_range_witness :
  let self := const_resolver initial_version_options any_pattern in
  make self "inital_version" ["-4"; "0"] [] =
    (Raise IndexError, mkConsole ["0"] [Prompt (menu self "inital_version")]).
Proof.
  exact (make_negative_out_of_range (const_resolver initial_version_options any_pattern)
           "inital_version" 4 ["0"] [] ltac:(simpl; lia)).
Defined.

Lemma index_In {A} (l : list A) (i : Z) (a : A) : Py.index l i = Ok a -> In a l.
Proof.
  unfold Py.index. intros H.
  destruct ((0 <=? (if i <? 0 then i + Z.of_nat (length l) else i))
            && ((if i <? 0 then i + Z.of_nat (length l) else i) <? Z.of_nat (length l)));
    [|discriminate].
  destruct (l !! Z.to_nat (if i <? 0 then i + Z.of_nat (length l) else i)) eqn:E;
    [|discriminate].
  inversion H; subst. apply list_elem_of_In. eapply list_elem_of_lookup_2; eauto.
Qed.

(** Where a value returned by [make] comes from, what was read and what
    was written; by induction on the number of lines. *)
Lemma make_returns (self : ConstResolver) (name : string) (n : nat) :
  forall (lines : list string) (out : list output) (v : obj) (io' : console),
  (length lines <= n)%nat ->
  make self name lines out = (Ok v, io') ->
  ((exists o, In o (options self) /\ v = option_obj o)
   \/ (exists custom_fn x,
         custom_option self = Some custom_fn /\ In x lines /\ custom_fn x = Ok v))
  /\ (exists used, used <> [] /\ lines = (used ++ stdin io')%list)
  /\ (exists written, stdout io' = (out ++ Prompt (menu self name) :: written)%list).
Proof.
  induction n as [|n IH]; intros lines out v io' Hlen H.
  { destruct lines; [cbn [make] in H; discriminate|simpl in Hlen; lia]. }
  destruct lines as [|response lines]; [cbn [make] in H; discriminate|].
  cbn [make] in H. cbv zeta in H.
  assert (Hretry : forall lines' extra,
            (length lines' <= n)%nat ->
            (exists skipped, skipped <> [] /\ response :: lines = (skipped ++ lines')%list) ->
            (forall x, In x lines' -> In x (response :: lines)) ->
            make self name lines' ((out ++ [Prompt (menu self name)]) ++ extra)%list
              = (Ok v, io') ->
            ((exists o, In o (options self) /\ v = option_obj o)
             \/ (exists custom_fn x,
                   custom_option self = Some custom_fn
                   /\ In x (response :: lines) /\ custom_fn x = Ok v))
            /\ (exists used, used <> [] /\ response :: lines = (used ++ stdin io')%list)
            /\ (exists written,
                  stdout io' = (out ++ Prompt (menu self name) :: written)%list)).
  { intros lines' extra Hl (skipped & Hsk & Elines) Hin Hm.
    destruct (IH _ _ _ _ Hl Hm) as (Horigin & (used & Hu & Eu) & (written & Ew)).
    split; [|split].
    - destruct Horigin as [Ho|(f & x & Hf & Hx & Hfx)]; [left; exact Ho|].
      right. exists f, x. auto.
    - exists (skipped ++ used)%list. split.
      + destruct skipped; [congruence|discriminate].
      + rewrite Elines, Eu, app_assoc. reflexivity.
    - exists (extra ++ Prompt (menu self name) :: written)%list.
      rewrite Ew, <- !app_assoc. reflexivity. }
  match type of H with
  | match ?s with _ => _ end = _ => destruct s as [r|] eqn:Esel
  end.
  - destruct r as [o|e|]; cbn [bind] in H; inversion H; subst.
    split; [|split].
    + left. exists o. split; [|reflexivity].
      clear Hretry.
      destruct (Py.int response) as [i|]; [|discriminate].
      destruct (i <? Z.of_nat (length (options self))); [|discriminate].
      inversion Esel as [Ei].
      eapply index_In; eauto.
    + exists [response]. split; [discriminate|reflexivity].
    + exists []. reflexivity.
  - destruct (if String.eqb response "t" then custom_option self else None)
      as [custom_fn|] eqn:Ec.
    + destruct (String.eqb response "t"); [|discriminate].
      destruct lines as [|custom lines]; [discriminate|].
      destruct (custom_fn custom) as [v'|e|] eqn:Ef.
      * inversion H; subst. split; [|split].
        -- right. exists custom_fn, custom. split; [exact Ec|].
           split; [right; left; reflexivity|exact Ef].
        -- exists [response; custom]. split; [discriminate|reflexivity].
        -- exists [Prompt ("enter custom text:" +:+ nl)].
           cbn [stdout]. rewrite <- app_assoc. reflexivity.
      * destruct (is_Exception e); [|discriminate].
        rewrite <- app_assoc in H.
        apply (Hretry lines
                 ([Prompt ("enter custom text:" +:+ nl)]
                  ++ [Print (exn_str e); Print ("could not parse " +:+ response)])%list).
        -- simpl in Hlen. lia.
        -- exists [response; custom]. split; [discriminate|reflexivity].
        -- intros x Hx. right. right. exact Hx.
        -- rewrite <- !app_assoc in *. exact H.
      * discriminate.
    + apply (Hretry lines [Print ("could not parse " +:+ response)]).
      * simpl in Hlen. lia.
      * exists [response]. split; [discriminate|reflexivity].
      * intros x Hx. right. exact Hx.
      * exact H.
Qed.

(** X3. Whatever is typed, a value that [make] returns is one of the
    options of the resolver (the option object) or the result of the
    custom-text function on one of the lines read; [make] has then read
    at least one line, reads the lines in order, and has only added to
    what was written, starting with the menu. *)
Theorem make_value_origin (self : ConstResolver) (name : string)
    (lines : list string) (out : list output) (v : obj) (io' : console) :
  make self name lines out = (Ok v, io') ->
  ((exists o, In o (options self) /\ v = option_obj o)
   \/ (exists custom_fn x,
         custom_option self = Some custom_fn /\ In x lines /\ custom_fn x = Ok v))
  /\ (exists used, used <> [] /\ lines = (used ++ stdin io')%list)
  /\ (exists written, stdout io' = (out ++ Prompt (menu self name) :: written)%list).
Proof.
  intros H. exact (make_returns self name (length lines) lines out v io' (le_n _) H).
Qed.

Lemma make_value_origin_witness :
  let self := year_resolver [mkOption "current year" (PyStr "2020")] in
  let v := PyStr "1999" in
  let io' := (make self "year" ["x"; "t"; "99"; "t"; "1999"; "rest"] []).2 in
  ((exists o, In o (options self) /\ v = option_obj o)
   \/ (exists custom_fn x,
         custom_option self = Some custom_fn
         /\ In x ["x"; "t"; "99"; "t"; "1999"; "rest"] /\ custom_fn x = Ok v))
  /\ (exists used, used <> []
        /\ ["x"; "t"; "99"; "t"; "1999"; "rest"] = (used ++ stdin io')%list)
  /\ (exists written, stdout io' = ([] ++ Prompt (menu self "year") :: written)%list).
Proof.
  exact (make_value_origin (year_resolver [mkOption "current year" (PyStr "2020")]) "year"
           ["x"; "t"; "99"; "t"; "1999"; "rest"] [] (PyStr "1999")
           (make (year_resolver [mkOption "current year" (PyStr "2020")]) "year"
              ["x"; "t"; "99"; "t"; "1999"; "rest"] []).2
           eq_refl).
Defined.

(** X4. Free text is never accepted unvalidated: a value that [make]
    returns and that is no option of the resolver is the text of a line
    that matches the pattern of the resolver in full, kept as a string by
    a [ConstResolver] and wrapped in [Authors] by an [AuthorsResolver]. *)
Theorem make_custom_text_is_validated (self : ConstResolver) (name : string)
    (lines : list string) (out : list output) (v : obj) (io' : console) :
  make self name lines out = (Ok v, io') ->
  (exists o, In o (options self) /\ v = option_obj o)
  \/ (exists p x,
        pattern self = Some p /\ In x lines /\ Re.fullmatch p x = true
        /\ v = match cls self with
               | ConstResolverCls => PyStr x
               | AuthorsResolverCls => Authors x
               end).
Proof.
  intros H.
  destruct (make_returns self name (length lines) lines out v io' (le_n _) H)
    as ([Ho|(f & x & Hf & Hx & Hfx)] & _); [left; exact Ho|].
  right. unfold custom_option in Hf.
  destruct (pattern self) as [p|]; [|discriminate].
  inversion Hf; subst f. clear Hf.
  exists p, x. split; [reflexivity|]. split; [exact Hx|].
  unfold validate in Hfx.
  destruct (Re.fullmatch p x); destruct (cls self); cbn in Hfx;
    try discriminate; inversion Hfx; auto.
Qed.

Lemma make_custom_text_is_validated_witness :
  let self := year_resolver [mkOption "current year" (PyStr "2020")] in
  let v := PyStr "1999" in
  (exists o, In o (options self) /\ v = option_obj o)
  \/ (exists p x,
        pattern self = Some p /\ In x ["t"; "99"; "t"; "1999"]
        /\ Re.fullmatch p x = true /\ v = PyStr x).
Proof.
  exact (make_custom_text_is_validated
           (year_resolver [mkOption "current year" (PyStr "2020")]) "year"
           ["t"; "99"; "t"; "1999"] [] (PyStr "1999")
           (make (year_resolver [mkOption "current year" (PyStr "2020")]) "year"
              ["t"; "99"; "t"; "1999"] []).2
           eq_refl).
Defined.

(** ** Authors *)

Lemma contains_app d a b :
  Str.contains d (a +:+ b) = Str.contains d a || Str.contains d b.
Proof.
  induction a as [|x a IH]; [reflexivity|].
  rewrite append_cons. simpl. rewrite IH, orb_assoc. reflexivity.
Qed.

Lemma contains_class (p : ascii -> bool) (d : ascii) (s : string) :
  p d = false -> Str.all p s = true -> Str.contains d s = false.
Proof.
  intros Hd. induction s as [|c t IH]; simpl; [reflexivity|].
  intros H. apply andb_prop in H as [Hc Ht]. rewrite (IH Ht), orb_false_r.
  apply Ascii.eqb_neq. intros ->. congruence.
Qed.

Lemma split_no_sep sep a : Str.contains sep a = false -> Str.split sep a = [a].
Proof.
  induction a as [|c t IH]; simpl; [reflexivity|].
  destruct (Ascii.eqb c sep); simpl; [discriminate|].
  intros H. rewrite (IH H). reflexivity.
Qed.

Lemma split_app sep a b :
  Str.contains sep a = false ->
  Str.split sep (a +:+ String sep b) = a :: Str.split sep b.
Proof.
  induction a as [|c t IH]; intros H.
  - rewrite append_nil_l. simpl. rewrite Ascii.eqb_refl. reflexivity.
  - rewrite append_cons. simpl in *.
    destruct (Ascii.eqb c sep); simpl in *; [discriminate|].
    rewrite (IH H). reflexivity.
Qed.

Lemma author_entry_no_comma g : author_entry g -> Str.contains "," g = false.
Proof.
  intros (name & sp & loc & dom & -> & [_ Hn] & Hsp & [_ Hl] & [_ Hd]).
  rewrite !contains_app.
  rewrite (contains_class Re.name_char "," name eq_refl Hn).
  rewrite (contains_class Re.addr_char "," loc eq_refl Hl).
  rewrite (contains_class Re.addr_char "," dom eq_refl Hd).
  simpl. rewrite !orb_false_r.
  apply Ascii.eqb_neq. intros ->. discriminate.
Qed.

Lemma split_authors g0 rest :
  Str.contains "," g0 = false ->
  Forall (fun p : string * string =>
            Str.all Str.isspace p.1 = true /\ author_entry p.2) rest ->
  Str.split "," (g0 +:+ more_authors rest) = g0 :: map (fun p => p.1 +:+ p.2) rest.
Proof.
  intros Hg H. revert g0 Hg.
  induction H as [|[ws g] rest [Hws Hentry] _ IH]; intros g0 Hg;
    cbn [fst snd] in *.
  - cbn [more_authors map].
    replace (g0 +:+ "") with g0
      by (clear; induction g0 as [|c t IH]; [reflexivity|];
          rewrite append_cons, <- IH; reflexivity).
    apply split_no_sep; exact Hg.
  - cbn [more_authors map fst snd].
    change ("," +:+ ws +:+ g +:+ more_authors rest)
      with (String "," (ws +:+ g +:+ more_authors rest)).
    rewrite (split_app _ _ _ Hg). f_equal.
    rewrite <- append_assoc. apply IH.
    rewrite contains_app, (author_entry_no_comma _ Hentry),
      (contains_class Str.isspace "," ws eq_refl Hws). reflexivity.
Qed.

Lemma lstrip_spaces ws g :
  Str.all Str.isspace ws = true -> Str.lstrip (ws +:+ g) = Str.lstrip g.
Proof.
  induction ws as [|c t IH]; [reflexivity|].
  rewrite append_cons. simpl. intros H. apply andb_prop in H as [Hc Ht].
  rewrite Hc. auto.
Qed.

Lemma more_authors_tail rest :
  Forall (fun p : string * string =>
            Str.all Str.isspace p.1 = true /\ author_entry p.2) rest ->
  author_tail (more_authors rest).
Proof.
  induction 1 as [|[ws g] rest [Hws Hentry] _ IH]; cbn [more_authors fst snd] in *;
    constructor; auto.
Qed.

(** X5. What is validated is what is parsed: for a first author and any
    number of further authors, each after a comma and white space, the
    text is accepted by the pattern of [AuthorsResolver], and [Authors]
    splits it into exactly these authors, in order, each without the
    white space around it. *)
Theorem Authors_of_accepted_text (g0 : string) (rest : list (string * string)) :
  author_entry g0 ->
  Forall (fun p : string * string =>
            Str.all Str.isspace p.1 = true /\ author_entry p.2) rest ->
  Re.fullmatch authors_pattern (g0 +:+ more_authors rest) = true
  /\ Authors (g0 +:+ more_authors rest) = AuthorsObj (map Str.strip (g0 :: map snd rest)).
Proof.
  intros Hg Hrest. split.
  - apply authors_pattern_list. exists g0, (more_authors rest).
    split; [reflexivity|]. split; [exact Hg|apply more_authors_tail; exact Hrest].
  - unfold Authors. f_equal.
    rewrite (split_authors _ _ (author_entry_no_comma _ Hg) Hrest).
    cbn [map]. f_equal.
    induction Hrest as [|[ws g] rest [Hws _] _ IH]; [reflexivity|].
    cbn [map fst snd] in *. f_equal; [|exact IH].
    unfold Str.strip. rewrite (lstrip_spaces _ _ Hws). reflexivity.
Qed.

Lemma Authors_of_accepted_text_witness :
  Re.fullmatch authors_pattern
    ("Ann Lee <ann@x.com>" +:+ more_authors [("  ", "Bo <bo@y.org>")]) = true
  /\ Authors ("Ann Lee <ann@x.com>" +:+ more_authors [("  ", "Bo <bo@y.org>")])
     = AuthorsObj (map Str.strip ("Ann Lee <ann@x.com>" :: map snd [("  ", "Bo <bo@y.org>")])).
Proof.
  apply Authors_of_accepted_text.
  - exists "Ann Lee", " "%char, "ann", "x.com".
    repeat split; try reflexivity; discriminate.
  - constructor; [|constructor]. split; [reflexivity|].
    exists "Bo", " "%char, "bo", "y.org".
    repeat split; try reflexivity; discriminate.
Defined.

(** ** describe, beyond strings *)

(** X6. [describe] cannot describe the structured values: when the name
    leaves room for a preview (fewer than 17 characters), [describe]
    raises [TypeError] for every [License], [Authors] and [PyVersions]
    value, since these have no length.  This is the case of every option
    of the license and version tables. *)
Theorem describe_structured_value (n : string) :
  (String.length n < 17)%nat ->
  (forall long short, describe (mkOption n (License long short)) = Raise TypeError)
  /\ (forall parts, describe (mkOption n (AuthorsObj parts)) = Raise TypeError)
  /\ (forall semver minors preferred,
        describe (mkOption n (PyVersions semver minors preferred)) = Raise TypeError).
Proof.
  intros Hn.
  assert (E : (20 - Z.of_nat (String.length n) - 3 <=? 0) = false)
    by (apply Z.leb_gt; lia).
  repeat split; intros; unfold describe, DESCRIPTION_MAX_LEN; cbn [name value];
    rewrite E; reflexivity.
Qed.

Lemma describe_structured_value_witness :
  Forall (fun o => describe o = Raise TypeError) (license_options ++ py_version_options).
Proof.
  pose proof (describe_structured_value "blank" ltac:(simpl; lia)) as (H1 & _).
  pose proof (describe_structured_value "proprietary" ltac:(simpl; lia)) as (H2 & _).
  pose proof (describe_structured_value "MIT" ltac:(simpl; lia)) as (H3 & _).
  pose proof (describe_structured_value "^3.6" ltac:(simpl; lia)) as (_ & _ & H4).
  pose proof (describe_structured_value "^3.7" ltac:(simpl; lia)) as (_ & _ & H5).
  pose proof (describe_structured_value "^3.8" ltac:(simpl; lia)) as (_ & _ & H6).
  pose proof (describe_structured_value "^3.9" ltac:(simpl; lia)) as (_ & _ & H7).
  repeat constructor; auto.
Defined.

(** ** Chained expressions *)

Lemma partition_app sep a b :
  Str.contains sep a = false ->
  Str.partition sep (a +:+ String sep b) = (a, String sep "", b).
Proof.
  induction a as [|c t IH]; intros H.
  - rewrite append_nil_l. simpl. rewrite Ascii.eqb_refl. reflexivity.
  - rewrite append_cons. simpl in *.
    destruct (Ascii.eqb c sep); simpl in *; [discriminate|].
    rewrite (IH H). reflexivity.
Qed.

Lemma inner_chain made_decisions name rest io :
  Str.contains "!" name = false ->
  rest <> "" ->
  inner made_decisions (name +:+ "!" +:+ rest) io =
    match made_decisions !! name with
    | Some v => inner_second v rest io
    | None => (Raise (KeyError name), io)
    end.
Proof.
  intros Hname Hrest.
  rewrite inner_eq. unfold inner_body.
  change ("!" +:+ rest) with (String "!" rest).
  rewrite (partition_app _ _ _ Hname).
  apply String.eqb_neq in Hrest. rewrite Hrest.
  rewrite inner_eq. unfold inner_body.
  rewrite (partition_no_sep _ _ Hname). simpl.
  destruct (made_decisions !! name); reflexivity.
Qed.

(** X7. A body [name!rest] is cut at its first [!] only: the name is
    looked up, a missing name raises [KeyError], and all of [rest], also
    when it holds further [!], is used as one accessor of the value. *)
Theorem repl_cuts_at_first_separator (made_decisions : gmap string obj)
    (name rest : string) (io : console) :
  Str.contains "!" name = false ->
  rest <> "" ->
  repl made_decisions (name +:+ "!" +:+ rest) io =
    match made_decisions !! name with
    | Some v =>
        let '(r, io') := inner_second v rest io in
        (bind r (fun x => Ok (Py.str x)), io')
    | None => (Raise (KeyError name), io)
    end.
Proof.
  intros Hname Hrest. unfold repl.
  rewrite (inner_chain _ _ _ _ Hname Hrest).
  destruct (made_decisions !! name); reflexivity.
Qed.

Lemma repl_cuts_at_first_separator_witness :
  let made : gmap string obj := {[ "license" := License "long text" "MIT" ]} in
  let io := mkConsole [] [] in
  repl made "license!short!upper" io =
    (let '(r, io') := inner_second (License "long text" "MIT") "short!upper" io in
     (bind r (fun x => Ok (Py.str x)), io'))
  /\ repl made "licence!short" io = (Raise (KeyError "licence"), io).
Proof.
  cbv zeta. split.
  - change "license!short!upper" with ("license" +:+ "!" +:+ "short!upper").
    rewrite repl_cuts_at_first_separator by (try reflexivity; discriminate).
    rewrite lookup_singleton_eq. reflexivity.
  - change "licence!short" with ("licence" +:+ "!" +:+ "short").
    rewrite repl_cuts_at_first_separator by (try reflexivity; discriminate).
    rewrite lookup_singleton_ne by discriminate. reflexivity.
Defined.

(** X8. An accessor that names an attribute of the value gives the text
    of that attribute, and a bound method is first called without
    arguments; nothing is read or written. *)
Theorem repl_attribute (made_decisions : gmap string obj)
    (name attr : string) (v a : obj) (io : console) :
  Str.contains "!" name = false ->
  attr <> "" ->
  made_decisions !! name = Some v ->
  getattr v attr = Ok a ->
  a <> PyNone ->
  repl made_decisions (name +:+ "!" +:+ attr) io =
    (bind (if Py.callable a then call0 a else Ok a) (fun x => Ok (Py.str x)), io).
Proof.
  intros Hname Hattr Hv Ha Hnone. unfold repl.
  rewrite (inner_chain _ _ _ _ Hname Hattr), Hv.
  unfold inner_second. rewrite Ha.
  destruct a; try congruence; reflexivity.
Qed.

Lemma repl_attribute_witness :
  let versions := PyVersions "^3.7" ["3.7"; "3.8"; "3.9"] "3.8" in
  let made : gmap string obj := {[ "py_versions" := versions ]} in
  let io := mkConsole [] [] in
  repl made "py_versions!preferred" io = (Ok "3.8", io)
  /\ repl made "py_versions!minors" io = (Ok "3.7, 3.8, 3.9", io).
Proof.
  cbv zeta. split.
  - change "py_versions!preferred" with ("py_versions" +:+ "!" +:+ "preferred").
    rewrite (repl_attribute _ "py_versions" "preferred"
               (PyVersions "^3.7" ["3.7"; "3.8"; "3.9"] "3.8") (PyStr "3.8"));
      first [reflexivity | discriminate | apply lookup_singleton_eq].
  - change "py_versions!minors" with ("py_versions" +:+ "!" +:+ "minors").
    rewrite (repl_attribute _ "py_versions" "minors"
               (PyVersions "^3.7" ["3.7"; "3.8"; "3.9"] "3.8")
               (PyMethod (PyVersions "^3.7" ["3.7"; "3.8"; "3.9"] "3.8") "minors"));
      first [reflexivity | discriminate | apply lookup_singleton_eq].
Defined.

Lemma hotswap_receives_None_witness :
  inner_second (PyStr "3.10") "semver" (mkConsole ["3"] []) =
    (Raise TypeError, mkConsole ["3"] []).
Proof.
  exact (hotswap_receives_None (PyStr "3.10") "semver" (mkConsole ["3"] [])
           eq_refl (or_intror (or_intror (or_introl eq_refl)))).
Defined.

(** ** Placeholders *)

Lemma sub_eq made_decisions s io :
  sub made_decisions s io = sub_body made_decisions s io.
Proof.
  funelim (sub made_decisions s io); unfold sub_body;
    try reflexivity;
    repeat match goal with
    | H : Placeholder.match_here _ = _ |- _ => rewrite H
    | H : repl _ _ _ = (_, _) |- _ => rewrite H
    | H : sub _ _ _ = (_, _) |- _ => rewrite H
    end; reflexivity.
Qed.

Lemma span_not_split d s a b :
  Placeholder.span_not d s = (a, b) ->
  s = a +:+ b /\ Str.contains d a = false
  /\ match b with String c _ => c = d | EmptyString => True end.
Proof.
  revert a b. induction s as [|c t IH]; simpl; intros a b H.
  - inversion H; subst. auto.
  - destruct (Ascii.eqb c d) eqn:E.
    + inversion H; subst. apply Ascii.eqb_eq in E. auto.
    + destruct (Placeholder.span_not d t) as [a' b'] eqn:Et.
      inversion H; subst. destruct (IH _ _ eq_refl) as (-> & Hc & Hb).
      split; [reflexivity|]. simpl. rewrite E, Hc. auto.
Qed.

Lemma span_not_app d a b :
  Str.contains d a = false ->
  Placeholder.span_not d (a +:+ String d b) = (a, String d b).
Proof.
  induction a as [|c t IH]; intros H.
  - rewrite append_nil_l. simpl. rewrite Ascii.eqb_refl. reflexivity.
  - rewrite append_cons. simpl in *.
    destruct (Ascii.eqb c d); simpl in *; [discriminate|].
    rewrite (IH H). reflexivity.
Qed.

Lemma match_here_sound (s body rest : string) :
  Placeholder.match_here s = Some (body, rest) ->
  s = "<$" +:+ body +:+ "$>" +:+ rest /\ Str.contains "$" body = false.
Proof.
  unfold Placeholder.match_here. intros H.
  repeat match type of H with
  | match ?x with _ => _ end = _ => destruct x eqn:?; try discriminate
  | (if ?x then _ else _) = _ => destruct x eqn:?; try discriminate
  end.
  inversion H; subst.
  match goal with
  | E : Placeholder.span_not _ _ = _ |- _ =>
      apply span_not_split in E as (-> & Hc & _)
  end.
  split; [reflexivity|exact Hc].
Qed.

Lemma match_here_complete (body rest : string) :
  Str.contains "$" body = false ->
  Placeholder.match_here ("<$" +:+ body +:+ "$>" +:+ rest) = Some (body, rest).
Proof.
  intros Hc.
  change ("<$" +:+ body +:+ "$>" +:+ rest)
    with (String "<" (String "$" (body +:+ String "$" (String ">" rest)))).
  unfold Placeholder.match_here.
  rewrite (span_not_app _ _ _ Hc). reflexivity.
Qed.

(** X9. The placeholder pattern matches at the start of a text exactly
    when the text is [<$], a body without any dollar, [$>] and a rest;
    the body is group 1 and the search goes on in the rest.  Line breaks
    and further [<] are allowed in the body. *)
Theorem match_here_spec (s body rest : string) :
  Placeholder.match_here s = Some (body, rest)
  <-> s = "<$" +:+ body +:+ "$>" +:+ rest /\ Str.contains "$" body = false.
Proof.
  split; [apply match_here_sound|].
  intros [-> Hc]. apply match_here_complete; exact Hc.
Qed.

Lemma search_cons c t :
  Placeholder.search (String c t) = false ->
  Placeholder.match_here (String c t) = None /\ Placeholder.search t = false.
Proof.
  cbn [Placeholder.search].
  destruct (Placeholder.match_here (String c t)); [discriminate|auto].
Qed.

(** X10. A text in which the pattern finds nothing is returned as it is
    by the substitution, which then evaluates nothing and neither reads
    nor writes. *)
Theorem sub_without_placeholder (made_decisions : gmap string obj)
    (s : string) (io : console) :
  Placeholder.search s = false ->
  sub made_decisions s io = (Ok s, io).
Proof.
  induction s as [|c t IH]; intros H; rewrite sub_eq; [reflexivity|].
  apply search_cons in H as [Hm Ht].
  unfold sub_body. rewrite Hm, (IH Ht). reflexivity.
Qed.

Lemma sub_without_placeholder_witness :
  sub ∅ "price: 5$ <b> $>" (mkConsole [] []) = (Ok "price: 5$ <b> $>", mkConsole [] []).
Proof.
  exact (sub_without_placeholder ∅ "price: 5$ <b> $>" (mkConsole [] []) eq_refl).
Defined.

Lemma match_here_not_lt c t :
  Ascii.eqb c "<" = false -> Placeholder.match_here (String c t) = None.
Proof.
  intros H. destruct (Placeholder.match_here (String c t)) as [[body rest]|] eqn:E;
    [|reflexivity].
  apply match_here_sound in E as [E _]. inversion E; subst.
  discriminate.
Qed.

(** X11. How the substitution works through a text: a stretch without
    [<] is copied, the placeholder after it is replaced by what [repl]
    gives for its body, and the substitution goes on after the closing
    delimiter with the console as [repl] left it; an exception of [repl]
    ends it, and what follows is not looked at. *)
Theorem sub_at_placeholder (made_decisions : gmap string obj)
    (a body b : string) (io : console) :
  Str.contains "<" a = false ->
  Str.contains "$" body = false ->
  sub made_decisions (a +:+ "<$" +:+ body +:+ "$>" +:+ b) io =
    match repl made_decisions body io with
    | (Ok text, io1) =>
        match sub made_decisions b io1 with
        | (Ok out, io2) => (Ok (a +:+ text +:+ out), io2)
        | (Raise e, io2) => (Raise e, io2)
        | (Outside, io2) => (Outside, io2)
        end
    | (Raise e, io1) => (Raise e, io1)
    | (Outside, io1) => (Outside, io1)
    end.
Proof.
  intros Ha Hbody. induction a as [|c a IH].
  - rewrite append_nil_l, sub_eq.
    pose proof (match_here_complete body b Hbody) as Hm.
    change ("<$" +:+ body +:+ "$>" +:+ b)
      with (String "<" (String "$" (body +:+ String "$" (String ">" b)))) in *.
    unfold sub_body. rewrite Hm. reflexivity.
  - simpl in Ha. apply orb_false_elim in Ha as [Hc Ha].
    rewrite append_cons, sub_eq. unfold sub_body.
    rewrite (match_here_not_lt _ _ Hc), (IH Ha).
    destruct (repl made_decisions body io) as [[text|e|] io1]; try reflexivity.
    destruct (sub made_decisions b io1) as [[out|e|] io2]; reflexivity.
Qed.

Lemma sub_at_placeholder_witness :
  let made : gmap string obj := {[ "package" := PyStr "widgets" ]} in
  let io := mkConsole [] [] in
  sub made "name = <$package$> # <$ package $>" io =
    match repl made "package" io with
    | (Ok text, io1) =>
        match sub made " # <$ package $>" io1 with
        | (Ok out, io2) => (Ok ("name = " +:+ text +:+ out), io2)
        | (Raise e, io2) => (Raise e, io2)
        | (Outside, io2) => (Outside, io2)
        end
    | (Raise e, io1) => (Raise e, io1)
    | (Outside, io1) => (Outside, io1)
    end.
Proof.
  exact (sub_at_placeholder {[ "package" := PyStr "widgets" ]} "name = " "package"
           " # <$ package $>" (mkConsole [] []) eq_refl eq_refl).
Defined.

(** ** The rewrite pass, beyond one file *)

Lemma rfind_dot_bkp (stem : string) :
  Path.rfind_dot (stem +:+ ".bkp") = Some (String.length stem).
Proof.
  induction stem as [|c t IH]; [reflexivity|].
  rewrite append_cons. simpl. rewrite IH. reflexivity.
Qed.

Lemma drop_app (a b : string) : Str.drop (String.length a) (a +:+ b) = b.
Proof. induction a as [|c t IH]; [destruct b; reflexivity|]. rewrite append_cons. exact IH. Qed.

Lemma name_child (p : list string) (n : string) : Path.name (Path.child p n) = n.
Proof. unfold Path.name, Path.child. apply last_last. Qed.

Lemma suffix_bkp (p : list string) (stem : string) :
  stem <> "" -> Path.suffix (Path.child p (stem +:+ ".bkp")) = ".bkp".
Proof.
  intros Hne. unfold Path.suffix. rewrite name_child, rfind_dot_bkp.
  rewrite length_append. simpl String.length.
  replace ((0 <? String.length stem)%nat) with true
    by (symmetry; apply Nat.ltb_lt; destruct stem; [congruence|simpl; lia]).
  replace ((String.length stem <? String.length stem + 4 - 1)%nat) with true
    by (symmetry; apply Nat.ltb_lt; lia).
  simpl andb. cbv iota. apply drop_app.
Qed.

(** A backup path has the backup suffix. *)
Lemma with_suffix_bkp (file b : list string) :
  Path.with_suffix file ".bkp" = Ok b -> Path.suffix b = ".bkp".
Proof.
  unfold Path.with_suffix.
  destruct (String.eqb_spec (Path.name file) "") as [|Hname]; [discriminate|].
  destruct (String.eqb_spec (Path.suffix file) "") as [Hs|Hs]; intros H;
    inversion H; subst; clear H.
  - apply suffix_bkp. exact Hname.
  - apply suffix_bkp.
    unfold Path.suffix in *.
    destruct (Path.rfind_dot (Path.name file)) as [i|]; [|congruence].
    destruct ((0 <? i)%nat && (i <? String.length (Path.name file) - 1)%nat) eqn:E;
      [|congruence].
    apply andb_prop in E as [E1 E2].
    apply Nat.ltb_lt in E1. apply Nat.ltb_lt in E2.
    rewrite length_drop.
    intros Hstem.
    assert (String.length
              (Str.take (String.length (Path.name file)
                         - (String.length (Path.name file) - i)) (Path.name file))
            = (String.length (Path.name file)
               - (String.length (Path.name file) - i))%nat) as Hl
      by (apply length_take; lia).
    rewrite Hstem in Hl. simpl in Hl. lia.
Qed.



(** X13. A backup is never scanned: the round of the loop for a path
    that was made as a backup path does nothing, so a backup is neither
    evaluated nor backed up again. *)
Theorem backup_is_not_scanned (args : Namespace) (made_decisions : gmap string obj)
    (file b : list string) (w : world) :
  Path.with_suffix file ".bkp" = Ok b ->
  rewrite_file args made_decisions b w = (Ok tt, w).
Proof.
  intros H. apply with_suffix_bkp in H.
  unfold rewrite_file. rewrite H. reflexivity.
Qed.

Lemma backup_is_not_scanned_witness :
  let made : gmap string obj := ∅ in
  let w := mkWorld (mkConsole [] []) {[ ["proj"; "a.tar.bkp"] := Text "<$missing$>" ]} in
  rewrite_file (mkArgs false true) made ["proj"; "a.tar.bkp"] w = (Ok tt, w).
Proof.
  exact (backup_is_not_scanned (mkArgs false true) ∅ ["proj"; "a.tar.gz"]
           ["proj"; "a.tar.bkp"]
           (mkWorld (mkConsole [] []) {[ ["proj"; "a.tar.bkp"] := Text "<$missing$>" ]})
           eq_refl).
Defined.


(** ** The package directory *)

Lemma make_package_ok (root : list string) (made_decisions : gmap string obj)
    (w w' : world) :
  make_package root made_decisions w = (Ok tt, w') ->
  exists pkg_name,
    made_decisions !! "package" = Some (PyStr pkg_name)
    /\ files w !! Path.child root pkg_name = None
    /\ w' = mkWorld (io w)
              (<[Path.child (Path.child root pkg_name) "_version.py"
                 := Text "__version__ = 0.0.1dev"]>
                 (<[Path.child root pkg_name := Directory]> (files w))).
Proof.
  unfold make_package.
  destruct (made_decisions !! "package") as [v|]; [|discriminate].
  destruct v; try discriminate.
  unfold mkdir.
  destruct (files w !! Path.child root s) eqn:Edir; [discriminate|].
  unfold write_text. cbn [files io].
  match goal with
  | |- context [match ?x with _ => _ end] => destruct x as [[| |]|]
  end; intros H; inversion H; subst; eauto.
Qed.

(** X14. The package directory is made exactly when the package decision
    is a string, nothing stands at the directory path and no directory
    stands at the path of its version file; the pass then adds the
    directory and the file [_version.py] with the fixed text
    [__version__ = 0.0.1dev], and changes nothing else. *)
Theorem make_package_spec (root : list string) (made_decisions : gmap string obj)
    (w w' : world) :
  make_package root made_decisions w = (Ok tt, w')
  <-> exists pkg_name,
        made_decisions !! "package" = Some (PyStr pkg_name)
        /\ files w !! Path.child root pkg_name = None
        /\ <[Path.child root pkg_name := Directory]> (files w)
             !! Path.child (Path.child root pkg_name) "_version.py" <> Some Directory
        /\ w' = mkWorld (io w)
                  (<[Path.child (Path.child root pkg_name) "_version.py"
                     := Text "__version__ = 0.0.1dev"]>
                     (<[Path.child root pkg_name := Directory]> (files w))).
Proof.
  split.
  - intros H. destruct (make_package_ok _ _ _ _ H) as (pkg & Hp & Hd & ->).
    exists pkg. repeat split; auto.
    intros Hdir. unfold make_package, mkdir, write_text in H.
    rewrite Hp, Hd in H. cbn [files io] in H. rewrite Hdir in H. discriminate.
  - intros (pkg & Hp & Hd & Hf & ->).
    unfold make_package, mkdir, write_text. rewrite Hp, Hd. cbn [files io].
    match goal with
    | |- context [match ?x with _ => _ end] => destruct x as [[| |]|] eqn:E
    end; try reflexivity. congruence.
Qed.

(** X15. A package directory is only ever named by validated free text:
    when the value that [make] returned for the package resolver is the
    package decision and the directory was made, the value is a line
    that was typed and that matches the package pattern, and the
    directory stands under that name.  A package picked from the menu
    never gets its directory. *)
Theorem package_directory_needs_free_text (options : list DecisionOption)
    (name : string) (lines : list string) (out : list output) (v : obj)
    (io' : console) (root : list string) (made_decisions : gmap string obj)
    (w w' : world) :
  make (const_resolver options package_pattern) name lines out = (Ok v, io') ->
  made_decisions !! "package" = Some v ->
  make_package root made_decisions w = (Ok tt, w') ->
  exists x,
    v = PyStr x /\ In x lines /\ Re.fullmatch package_pattern x = true
    /\ files w' !! Path.child root x = Some Directory.
Proof.
  intros Hmake Hv Hpkg.
  destruct (make_package_ok _ _ _ _ Hpkg) as (pkg & Hp & Hd & ->).
  rewrite Hv in Hp. inversion Hp; subst v. clear Hp.
  destruct (make_returns _ name (length lines) lines out _ io' (le_n _) Hmake)
    as ([(o & _ & Ho)|(f & x & Hf & Hx & Hfx)] & _); [discriminate|].
  inversion Hf; subst f. clear Hf. unfold validate in Hfx.
  destruct (Re.fullmatch package_pattern x) eqn:Em; cbn in Hfx; [|discriminate].
  inversion Hfx; subst pkg.
  exists x. repeat split; auto.
  cbn [files]. rewrite lookup_insert_ne.
  - apply lookup_insert_eq.
  - unfold Path.child. intros E. apply (f_equal length) in E.
    rewrite !length_app in E. simpl in E. lia.
Qed.

Lemma package_directory_needs_free_text_witness :
  let self := const_resolver [mkOption "folder_name" (PyStr "proj")] package_pattern in
  let made : gmap string obj := {[ "package" := PyStr "widgets" ]} in
  let w := mkWorld (mkConsole [] []) ∅ in
  exists x,
    PyStr "widgets" = PyStr x /\ In x ["2x"; "t"; "widgets"]
    /\ Re.fullmatch package_pattern x = true
    /\ files (make_package ["proj"] made w).2 !! Path.child ["proj"] x = Some Directory.
Proof.
  exact (package_directory_needs_free_text [mkOption "folder_name" (PyStr "proj")]
           "package" ["2x"; "t"; "widgets"] [] (PyStr "widgets")
           (make (const_resolver [mkOption "folder_name" (PyStr "proj")] package_pattern)
              "package" ["2x"; "t"; "widgets"] []).2
           ["proj"] {[ "package" := PyStr "widgets" ]}
           (mkWorld (mkConsole [] []) ∅)
           (make_package ["proj"] {[ "package" := PyStr "widgets" ]}
              (mkWorld (mkConsole [] []) ∅)).2
           eq_refl eq_refl eq_refl).
Defined.

(** ** All decisions *)

Lemma make_resolved_by (self : ConstResolver) (name : string)
    (lines : list string) (out : list output) (v : obj) (io' : console) :
  make self name lines out = (Ok v, io') -> resolved_by self v.
Proof.
  intros H.
  destruct (make_returns self name (length lines) lines out v io' (le_n _) H)
    as ([Ho|(f & x & Hf & Hx & Hfx)] & _); [left; exact Ho|].
  right. unfold custom_option in Hf.
  destruct (pattern self) as [p|]; [|discriminate].
  inversion Hf; subst f. clear Hf.
  exists p, x. split; [reflexivity|].
  unfold validate in Hfx.
  destruct (Re.fullmatch p x); destruct (cls self); cbn in Hfx;
    try discriminate; inversion Hfx; auto.
Qed.

Lemma make_all_invariant (table : list (string * ConstResolver)) :
  forall (made0 made : gmap string obj) (io io' : console),
  make_all table made0 io = (Ok made, io') ->
  (forall k, is_Some (made !! k) <-> is_Some (made0 !! k) \/ In k (map fst table))
  /\ (forall k v, made !! k = Some v ->
        made0 !! k = Some v
        \/ exists self, In (k, self) table /\ resolved_by self v).
Proof.
  induction table as [|[name self] rest IH]; intros made0 made io io' H.
  - cbn [make_all] in H. inversion H; subst. split.
    + intros k. cbn [map In]. tauto.
    + intros k v Hk. left. exact Hk.
  - cbn [make_all] in H.
    destruct (make self name (stdin io) (stdout io)) as [[v1|e|] io1] eqn:Em;
      try discriminate.
    destruct (IH _ _ _ _ H) as [Hdom Hval]. split.
    + intros k. rewrite Hdom. cbn [map In fst].
      destruct (decide (name = k)) as [->|Hne].
      * rewrite lookup_insert_eq. split; [intros _|intros _; left; eauto].
        right. left. reflexivity.
      * rewrite lookup_insert_ne by exact Hne. tauto.
    + intros k v Hk. destruct (Hval k v Hk) as [H0|(s & Hin & Hr)].
      * destruct (decide (name = k)) as [->|Hne].
        -- rewrite lookup_insert_eq in H0. inversion H0; subst.
           right. exists self. split; [left; reflexivity|].
           eapply make_resolved_by; eauto.
        -- rewrite lookup_insert_ne in H0 by exact Hne. left. exact H0.
      * right. exists s. split; [right; exact Hin|exact Hr].
Qed.

(** X16. When every resolver of the table has returned, the decisions
    made hold a value for each name of the table and for no other name,
    and each value was given by a resolver of that name: it is one of
    its option objects, or free text that its pattern matches in full. *)
Theorem make_all_resolves_every_name (table : list (string * ConstResolver))
    (made_decisions : gmap string obj) (io io' : console) :
  make_all table ∅ io = (Ok made_decisions, io') ->
  (forall k, is_Some (made_decisions !! k) <-> In k (map fst table))
  /\ (forall k v, made_decisions !! k = Some v ->
        exists self, In (k, self) table /\ resolved_by self v).
Proof.
  intros H. destruct (make_all_invariant _ _ _ _ _ H) as [Hdom Hval]. split.
  - intros k. rewrite Hdom, lookup_empty. split; [intros [[x Hx]|Hin]|intros Hin].
    + discriminate.
    + exact Hin.
    + right. exact Hin.
  - intros k v Hk. destruct (Hval k v Hk) as [H0|Hr]; [|exact Hr].
    rewrite lookup_empty in H0. discriminate.
Qed.

Lemma make_all_resolves_every_name_witness :
  let table := [("year", year_resolver [mkOption "current year" (PyStr "2020")]);
                ("os_platforms", const_resolver platform_options any_pattern)] in
  let made := match (make_all table ∅ (mkConsole ["t"; "1999"; "4"] [])).1 with
              | Ok m => m
              | _ => ∅
              end in
  (forall k, is_Some (made !! k) <-> In k ["year"; "os_platforms"])
  /\ (forall k v, made !! k = Some v ->
        exists self, In (k, self) table /\ resolved_by self v).
Proof.
  exact (make_all_resolves_every_name
           [("year", year_resolver [mkOption "current year" (PyStr "2020")]);
            ("os_platforms", const_resolver platform_options any_pattern)]
           (match (make_all
                     [("year", year_resolver [mkOption "current year" (PyStr "2020")]);
                      ("os_platforms", const_resolver platform_options any_pattern)]
                     ∅ (mkConsole ["t"; "1999"; "4"] [])).1 with
            | Ok m => m
            | _ => ∅
            end)
           (mkConsole ["t"; "1999"; "4"] [])
           (make_all
              [("year", year_resolver [mkOption "current year" (PyStr "2020")]);
               ("os_platforms", const_resolver platform_options any_pattern)]
              ∅ (mkConsole ["t"; "1999"; "4"] [])).2
           eq_refl).
Defined.

(** ** The probes *)

Lemma add_repo_link (folder year : string) (a d : list DecisionOption)
    (option : DecisionOption) :
  exists d',
    decisions_add "repo_link" option (probed folder year a d) = probed folder year a d'.
Proof.
  eexists. unfold probed. cbn [decisions_add String.eqb Ascii.eqb Bool.eqb].
  unfold add_option, const_resolver. cbn [cls pattern pattern_description _options].
  reflexivity.
Qed.

Lemma add_remotes_probed (env : environment) (remotes : list string) :
  forall (folder year : string) (a d : list DecisionOption)
         (table : list (string * ConstResolver)),
  add_remotes env remotes (probed folder year a d) = Ok table ->
  exists d', table = probed folder year a d'.
Proof.
  induction remotes as [|remote rest IH]; intros folder year a d table H.
  - cbn [add_remotes] in H. inversion H; subst. eauto.
  - cbn [add_remotes] in H.
    destruct (run_and_get env ("git remote get-url " +:+ remote) None) as [url|e|];
      cbn [bind] in H; try discriminate.
    destruct (nonempty url) as [u|].
    + match type of H with
      | add_remotes _ _ (decisions_add _ ?o _) = _ =>
          destruct (add_repo_link folder year a d o) as [d' E]
      end.
      rewrite E in H. eapply IH; eauto.
    + eapply IH; eauto.
Qed.

(** X17. Whatever git reports, the probes keep the eight questions, their
    order and their patterns, and they leave the license, version,
    platform and initial-version tables alone: the package question gets
    the folder name as its only option, the year question the current
    year, the authors question at most the git user, and only the
    repository question gets an option list that depends on the
    remotes. *)
Theorem probe_shape (env : environment) (table : list (string * ConstResolver)) :
  probe env = Ok table ->
  exists authors_options repo_options,
    table = probed (Path.name (project_root env)) (Py.str_int (now_year env))
              authors_options repo_options
    /\ (authors_options = []
        \/ exists username email,
             authors_options =
               [mkOption "git user" (Authors (username +:+ " <" +:+ email +:+ ">"))]).
Proof.
  unfold probe. intros H.
  destruct (run_and_get env "git config user.name" None) as [username|e|];
    cbn [bind] in H; try discriminate.
  assert (Hstart :
    decisions_add "year" (mkOption "current year" (PyStr (Py.str_int (now_year env))))
      (decisions_add "package"
         (mkOption "folder_name" (PyStr (Path.name (project_root env)))) decisions)
    = probed (Path.name (project_root env)) (Py.str_int (now_year env)) [] [])
    by reflexivity.
  rewrite Hstart in H. clear Hstart.
  assert (Hauthors : forall u e,
    decisions_add "authors" (mkOption "git user" (Authors (u +:+ " <" +:+ e +:+ ">")))
      (probed (Path.name (project_root env)) (Py.str_int (now_year env)) [] [])
    = probed (Path.name (project_root env)) (Py.str_int (now_year env))
        [mkOption "git user" (Authors (u +:+ " <" +:+ e +:+ ">"))] [])
    by reflexivity.
  destruct (nonempty username) as [u|].
  - destruct (run_and_get env "git config user.email" None) as [email|e|];
      cbn [bind] in H; try discriminate.
    destruct (nonempty email) as [m|]; cbn [bind] in H.
    + rewrite Hauthors in H.
      destruct (run_and_get env "git remote" (Some "")) as [out|e|];
        cbn [bind] in H; try discriminate.
      apply add_remotes_probed in H as [d' ->].
      eexists _, d'. split; [reflexivity|]. right. eauto.
    + destruct (run_and_get env "git remote" (Some "")) as [out|e|];
        cbn [bind] in H; try discriminate.
      apply add_remotes_probed in H as [d' ->].
      eexists _, d'. split; [reflexivity|]. left. reflexivity.
  - cbn [bind] in H.
    destruct (run_and_get env "git remote" (Some "")) as [out|e|];
      cbn [bind] in H; try discriminate.
    apply add_remotes_probed in H as [d' ->].
    eexists _, d'. split; [reflexivity|]. left. reflexivity.
Qed.

Lemma probe_shape_witness :
  let env :=
    mkEnv ["home"; "proj"; "scripts"] 2020
      (fun cmd =>
         if String.eqb cmd "git remote" then Ok (0, "origin" +:+ nl)
         else if String.eqb cmd "git remote get-url origin" then Ok (0, "https://h/x.git" +:+ nl)
         else if String.eqb cmd "git config user.name" then Ok (0, "Ann" +:+ nl)
         else Ok (1, ""))
      (fun _ => []) in
  exists authors_options repo_options,
    probed "proj" "2020" [] [mkOption "origin" (PyStr "https://h/x")]
    = probed "proj" "2020" authors_options repo_options
    /\ (authors_options = []
        \/ exists username email,
             authors_options =
               [mkOption "git user" (Authors (username +:+ " <" +:+ email +:+ ">"))]).
Proof.
  intros env.
  exact (probe_shape env
           (probed "proj" "2020" [] [mkOption "origin" (PyStr "https://h/x")])
           eq_refl).
Defined.

Lemma take_app (a b : string) : Str.take (String.length a) (a +:+ b) = a.
Proof.
  induction a as [|c t IH]; [destruct b; reflexivity|].
  rewrite append_cons. simpl. rewrite IH. reflexivity.
Qed.

(** X18. A remote whose URL ends in [.git] is offered without that
    ending: when [git remote get-url] succeeds for the remote and its
    output, white space stripped, is [u.git], the option added for the
    remote has the value [u]. *)
Theorem remote_url_without_git (env : environment) (remote u out : string)
    (table : list (string * ConstResolver)) :
  subprocess_run env ("git remote get-url " +:+ remote) = Ok (0, out) ->
  Str.strip out = u +:+ ".git" ->
  add_remotes env [remote] table =
    Ok (decisions_add "repo_link" (mkOption remote (PyStr u)) table).
Proof.
  intros Hrun Hout. cbn [add_remotes]. unfold run_and_get.
  rewrite Hrun. cbn [bind]. simpl negb. cbv iota. cbn [bind]. rewrite Hout.
  assert (Hne : nonempty (Some (u +:+ ".git")) = Some (u +:+ ".git"))
    by (destruct u; reflexivity).
  rewrite Hne.
  assert (Hlen : (String.length (u +:+ ".git") - 4 = String.length u)%nat)
    by (rewrite length_append; simpl; lia).
  assert (Hends : Str.endswith (u +:+ ".git") ".git" = true).
  { unfold Str.endswith. change (String.length ".git") with 4%nat.
    rewrite Hlen, drop_app, length_append. change (String.length ".git") with 4%nat.
    apply andb_true_intro. split; [reflexivity|apply Nat.leb_le; lia]. }
  rewrite Hends, Hlen, take_app. reflexivity.
Qed.

Lemma remote_url_without_git_witness :
  let env :=
    mkEnv ["proj"] 2020 (fun _ => Ok (0, "https://host/me/x.git.git" +:+ nl)) (fun _ => []) in
  add_remotes env ["origin"] decisions =
    Ok (decisions_add "repo_link" (mkOption "origin" (PyStr "https://host/me/x.git"))
          decisions).
Proof.
  exact (remote_url_without_git
           (mkEnv ["proj"] 2020 (fun _ => Ok (0, "https://host/me/x.git.git" +:+ nl))
              (fun _ => []))
           "origin" "https://host/me/x.git" ("https://host/me/x.git.git" +:+ nl)
           decisions eq_refl eq_refl).
Defined.

(** ** load_resolved and the license texts *)

Lemma hasattr_format_mapped (v : obj) : hasattr v "format_mapped" = Ok false.
Proof. destruct v; try reflexivity. destruct v; reflexivity. Qed.

Lemma load_options_same (l : list DecisionOption) (resolved : gmap string obj) :
  load_options l resolved = Ok l.
Proof.
  induction l as [|[n v] rest IH]; [reflexivity|].
  cbn [load_options value name]. rewrite hasattr_format_mapped. cbn [bind].
  rewrite IH. reflexivity.
Qed.

Lemma set_of_subset (l acc : list DecisionOption) (o : DecisionOption) :
  In o (fold_left
          (fun acc o => if existsb (option_eqb o) acc then acc else (acc ++ [o])%list)
          l acc) ->
  In o acc \/ In o l.
Proof.
  revert acc. induction l as [|x l IH]; intros acc H; cbn [fold_left] in H; [auto|].
  apply IH in H as [H|H]; [|right; right; exact H].
  destruct (existsb (option_eqb x) acc); [left; exact H|].
  apply in_app_or in H as [H|[->|[]]]; [left; exact H|right; left; reflexivity].
Qed.

(** X19. [load_resolved] formats nothing: it asks every value for an
    attribute named [format_mapped], which no value has, so for every
    map of resolved decisions the resolver gets the set of the options
    it had, each with its value as it was; the texts of the licenses
    keep their [{year}] and [{authors}]. *)
Theorem load_resolved_formats_nothing (self : ConstResolver)
    (resolved : gmap string obj) :
  load_resolved self resolved =
    Ok (mkResolver (cls self) (pattern self) (pattern_description self)
          (set_of (_options self)))
  /\ (forall o, In o (set_of (_options self)) -> In o (options self))
  /\ set_of license_options = license_options.
Proof.
  split; [|split].
  - unfold load_resolved. rewrite load_options_same. reflexivity.
  - intros o H. apply set_of_subset in H as [[]|H]. exact H.
  - reflexivity.
Qed.

Lemma format_literal (a rest : string) (m : gmap string obj) :
  brace_free a = true ->
  Format.str_format_map (a +:+ rest) None m =
    bind (Format.str_format_map rest None m) (fun r => Ok (a +:+ r)).
Proof.
  unfold brace_free. induction a as [|c a IH]; intros H.
  - rewrite append_nil_l. destruct (Format.str_format_map rest None m); reflexivity.
  - rewrite append_cons. simpl in H.
    rewrite !negb_orb in H.
    apply andb_prop in H as [H1 H2].
    apply andb_prop in H1 as [Hc1 Ha1]. apply andb_prop in H2 as [Hc2 Ha2].
    apply negb_true_iff in Hc1, Hc2.
    cbn [Format.str_format_map]. rewrite Hc1, Hc2.
    rewrite IH by (rewrite Ha1, Ha2; reflexivity).
    destruct (Format.str_format_map rest None m); reflexivity.
Qed.

Lemma format_in_field (k rest acc : string) (m : gmap string obj) :
  Str.contains "}" k = false ->
  Format.str_format_map (k +:+ String "}" rest) (Some acc) m =
    Format.str_format_map (String "}" rest) (Some (acc +:+ k)) m.
Proof.
  revert acc. induction k as [|c k IH]; intros acc H.
  - rewrite append_nil_l. f_equal. f_equal.
    clear. induction acc as [|x acc IH]; [reflexivity|].
    rewrite append_cons, <- IH. reflexivity.
  - rewrite append_cons. simpl in H. apply orb_false_elim in H as [Hc Hk].
    cbn [Format.str_format_map]. rewrite Hc, (IH _ Hk).
    f_equal. f_equal. rewrite append_assoc. reflexivity.
Qed.

Lemma format_field (k rest : string) (m : gmap string obj) :
  Format.plain_field k = true ->
  Str.contains "}" k = false ->
  Format.str_format_map (String "{" (k +:+ String "}" rest)) None m =
    match m !! k with
    | Some v => bind (Format.str_format_map rest None m) (fun r => Ok (Py.str v +:+ r))
    | None => Raise (KeyError k)
    end.
Proof.
  intros Hp Hk.
  assert (Hfirst : match k +:+ String "}" rest with
                   | String "{" _ => False
                   | _ => True
                   end).
  { destruct k as [|c k]; [exact I|]. rewrite append_cons.
    unfold Format.plain_field in Hp. simpl in Hp.
    destruct (Ascii.eqb_spec c "{") as [->|Hne].
    - rewrite !orb_true_r, andb_false_r in Hp. discriminate.
    - destruct c as [[] [] [] [] [] [] [] []]; try exact I. congruence. }
  cbn [Format.str_format_map]. change (Ascii.eqb "{" "{") with true. cbv iota.
  assert (E : match k +:+ String "}" rest with
              | String "{" t' =>
                  bind (Format.str_format_map t' None m) (fun r => Ok (String "{" r))
              | _ => Format.str_format_map (k +:+ String "}" rest) (Some "") m
              end = Format.str_format_map (k +:+ String "}" rest) (Some "") m).
  { destruct (k +:+ String "}" rest) as [|c t]; [reflexivity|].
    destruct c as [[] [] [] [] [] [] [] []]; try reflexivity. destruct Hfirst. }
  rewrite E, (format_in_field _ _ _ _ Hk), append_nil_l.
  cbn [Format.str_format_map]. change (Ascii.eqb "}" "}") with true. cbv iota.
  rewrite Hp. reflexivity.
Qed.

(** X20. [License.format_map] fills in a license text that starts with
    the copyright line of the tables: when the mapping has the year and
    the authors, the line gets their texts, what follows it and the
    short name being kept when they have no brace; when the mapping has
    no year, [KeyError] is raised for [year]. *)
Theorem format_map_copyright (tail short : string) (m : gmap string obj) :
  brace_free tail = true ->
  brace_free short = true ->
  format_map ("Copyright (c) {year}, {authors}" +:+ tail) short m =
    match m !! "year", m !! "authors" with
    | Some y, Some a =>
        Ok (License ("Copyright (c) " +:+ Py.str y +:+ ", " +:+ Py.str a +:+ tail) short)
    | Some _, None => Raise (KeyError "authors")
    | None, _ => Raise (KeyError "year")
    end.
Proof.
  intros Htail Hshort. unfold format_map.
  change ("Copyright (c) {year}, {authors}" +:+ tail)
    with ("Copyright (c) "
          +:+ String "{" ("year" +:+ String "}"
                (", " +:+ String "{" ("authors" +:+ String "}" tail)))).
  rewrite (format_literal "Copyright (c) " _ m eq_refl).
  rewrite (format_field "year" _ m eq_refl eq_refl).
  destruct (m !! "year") as [y|]; [|reflexivity].
  rewrite (format_literal ", " _ m eq_refl).
  rewrite (format_field "authors" _ m eq_refl eq_refl).
  destruct (m !! "authors") as [a|]; [|reflexivity].
  pose proof (format_literal tail "" m Htail) as Ht.
  pose proof (format_literal short "" m Hshort) as Hs.
  assert (Hnil : forall s : string, s +:+ "" = s).
  { induction s as [|c s IH]; [reflexivity|]. rewrite append_cons, IH. reflexivity. }
  rewrite !Hnil in Ht, Hs. cbn [Format.str_format_map bind] in Ht, Hs.
  rewrite Ht. cbn [bind]. rewrite Hs. cbn [bind].
  rewrite !Hnil. reflexivity.
Qed.

Lemma format_map_copyright_witness :
  let m : gmap string obj := <["year" := PyStr "2020"]> {[ "authors" := PyStr "Ann" ]} in
  format_map ("Copyright (c) {year}, {authors}" +:+ "") "Proprietary" m =
    match m !! "year", m !! "authors" with
    | Some y, Some a =>
        Ok (License ("Copyright (c) " +:+ Py.str y +:+ ", " +:+ Py.str a +:+ "")
              "Proprietary")
    | Some _, None => Raise (KeyError "authors")
    | None, _ => Raise (KeyError "year")
    end.
Proof.
  intros m. apply format_map_copyright; reflexivity.
Defined.
